(** * Medical portal client and Telegram bot: a shallow embedding

    The development follows the two Python modules of the repository,
    [medical_portal_client.py] (class [MedicalPortalClient]) and
    [telegram_bot.py] (class [TelegramMedicalBot]), plus the interactive
    menu of [example_usage.py].

    Conventions.
    - A Python [str] is a [string]; one [ascii] stands for one character,
      the one with that code point (0 to 255).  The symbols that open the
      bot's texts lie beyond and are written as the bytes of the source.
    - A Python [int] is a [Z].
    - [None] is [None]; a dictionary with a fixed key set is a record, a
      dictionary built key by key is an association list in insertion order.
    - What lies outside the repository (the portal, the chat transport, the
      file system, the HTML and JSON parsers) is an explicit argument: a
      function from requests to responses, a parsed tree, a parsed document.
    - A Python exception is a value of [exn]; a call that may raise returns
      a [result]. *)

From Stdlib Require Import List ZArith String Ascii Bool Lia Sorted DecimalString.
Import ListNotations.
Local Open Scope string_scope.
Local Open Scope Z_scope.

Set Implicit Arguments.
Set Warnings "-register-all".

(* ===================================================================== *)
(** ** Python primitives used by the sources *)
(* ===================================================================== *)

Module Py.

(** The exception classes that the modelled code can meet. *)
Inductive exn : Type :=
| TypeError
| ValueError
| AttributeError
| KeyError
| JSONDecodeError
| OSError
| RequestException
| TelegramError.

(** Outcome of a call: a value, or a raised exception. *)
Inductive result (A : Type) : Type :=
| Ok (a : A)
| Raise (e : exn).

Arguments Ok {A} a.
Arguments Raise {A} e.

Definition bind {A B : Type} (r : result A) (k : A -> result B) : result B :=
  match r with
  | Ok a => k a
  | Raise e => Raise e
  end.

(** Truth value of an optional string: [None] and [''] are false. *)
Definition truthy (o : option string) : bool :=
  match o with
  | Some s => negb (String.eqb s "")
  | None => false
  end.

(** Truth value of an optional integer: [None] and [0] are false. *)
Definition truthy_int (o : option Z) : bool :=
  match o with
  | Some z => negb (z =? 0)
  | None => false
  end.

(** Truth value of an optional boolean: [None] and [False] are false. *)
Definition truthy_bool (o : option bool) : bool :=
  match o with
  | Some b => b
  | None => false
  end.

(** [c.isspace()]: TAB, LF, VT, FF, CR, FS, GS, RS, US, the blank, NEL
    (133) and the no-break space (160).  These are the characters that
    [strip] and [split] take for white space. *)
Definition isspace (c : ascii) : bool :=
  let n := nat_of_ascii c in
  ((9 <=? n) && (n <=? 13) || (28 <=? n) && (n <=? 32) ||
   (n =? 133) || (n =? 160))%nat.

Definition isdigit (c : ascii) : bool :=
  let n := nat_of_ascii c in ((48 <=? n) && (n <=? 57))%nat.

Definition digit_value (c : ascii) : Z := Z.of_nat (nat_of_ascii c) - 48.

(** [c.lower()]: the capital letters are A to Z and the code points 192 to
    222 without the multiplication sign (215); the small letter lies 32
    further. *)
Definition lower_char (c : ascii) : ascii :=
  let n := nat_of_ascii c in
  if ((65 <=? n) && (n <=? 90) ||
      (192 <=? n) && (n <=? 222) && negb (n =? 215))%nat
  then ascii_of_nat (n + 32) else c.

(** [s.lower()] *)
Fixpoint lower (s : string) : string :=
  match s with
  | EmptyString => EmptyString
  | String c r => String (lower_char c) (lower r)
  end.

(** [s.lstrip()] *)
Fixpoint lstrip (s : string) : string :=
  match s with
  | EmptyString => EmptyString
  | String c r => if isspace c then lstrip r else s
  end.

(** [s.rstrip()] *)
Fixpoint rstrip (s : string) : string :=
  match s with
  | EmptyString => EmptyString
  | String c r =>
      let r' := rstrip r in
      if isspace c && (String.eqb r' "") then EmptyString else String c r'
  end.

(** [s.strip()] *)
Definition strip (s : string) : string := rstrip (lstrip s).

(** [s.startswith(p)] *)
Definition startswith (p s : string) : bool := String.prefix p s.

(** [sub in s] *)
Fixpoint contains (sub s : string) : bool :=
  String.prefix sub s ||
  match s with
  | EmptyString => false
  | String _ r => contains sub r
  end.

(** [s.split(sep)] for a non-empty separator.  [skip] counts the characters
    of a separator occurrence that are still to be passed over, [cur] is the
    piece being read. *)
Fixpoint split_from (sep : string) (skip : nat) (cur s : string) : list string :=
  match s with
  | EmptyString => [cur]
  | String c r =>
      match skip with
      | S k => split_from sep k cur r
      | O =>
          if String.prefix sep s
          then cur :: split_from sep (Nat.pred (String.length sep)) "" r
          else split_from sep O (cur ++ String c "") r
      end
  end.

Definition split (sep s : string) : list string := split_from sep O "" s.

(** [s.split()]: pieces between runs of white space, none of them empty. *)
Fixpoint split_ws_from (cur s : string) : list string :=
  match s with
  | EmptyString => if String.eqb cur "" then [] else [cur]
  | String c r =>
      if isspace c
      then (if String.eqb cur "" then split_ws_from "" r else cur :: split_ws_from "" r)
      else split_ws_from (cur ++ String c "") r
  end.

Definition split_ws (s : string) : list string := split_ws_from "" s.

(** [s.replace(old, new)] for a non-empty [old]: every occurrence, left to
    right, without overlap. *)
Fixpoint replace_from (old new : string) (skip : nat) (s : string) : string :=
  match s with
  | EmptyString => EmptyString
  | String c r =>
      match skip with
      | S k => replace_from old new k r
      | O =>
          if String.prefix old s
          then new ++ replace_from old new (Nat.pred (String.length old)) r
          else String c (replace_from old new O r)
      end
  end.

Definition replace (old new s : string) : string := replace_from old new O s.

(** [sep.join(parts)] *)
Fixpoint join (sep : string) (parts : list string) : string :=
  match parts with
  | [] => ""
  | [p] => p
  | p :: ps => p ++ sep ++ join sep ps
  end.

(** [s[:n]] *)
Fixpoint take (n : nat) (s : string) : string :=
  match n, s with
  | S k, String c r => String c (take k r)
  | _, _ => EmptyString
  end.

(** Digits of a decimal literal: groups of digits separated by single
    underscores.  [after_digit] tells whether the previous character was a
    digit. *)
Fixpoint int_digits (acc : Z) (after_digit : bool) (s : string) : option Z :=
  match s with
  | EmptyString => if after_digit then Some acc else None
  | String c r =>
      if isdigit c then int_digits (10 * acc + digit_value c) true r
      else if (Ascii.eqb c "_") && after_digit then int_digits acc false r
      else None
  end.

(** The white space that [int] drops around a literal.  It is not that of
    [strip]: the parser of literals skips TAB, LF, VT, FF, CR and the
    blank, and before it runs every white space character from code point
    127 on (NEL and the no-break space) is replaced by a blank; FS, GS, RS
    and US stay and make the literal invalid. *)
Definition int_space (c : ascii) : bool :=
  let n := nat_of_ascii c in
  ((9 <=? n) && (n <=? 13) || (n =? 32) || (n =? 133) || (n =? 160))%nat.

Fixpoint int_lstrip (s : string) : string :=
  match s with
  | EmptyString => EmptyString
  | String c r => if int_space c then int_lstrip r else s
  end.

Fixpoint int_rstrip (s : string) : string :=
  match s with
  | EmptyString => EmptyString
  | String c r =>
      let r' := int_rstrip r in
      if int_space c && (String.eqb r' "") then EmptyString else String c r'
  end.

(** [sys.get_int_max_str_digits()], at its default: a decimal literal with
    more digits is refused. *)
Definition int_max_str_digits : nat := 4300.

(** The number of digits of a literal, underscores not counted. *)
Fixpoint count_digits (s : string) : nat :=
  match s with
  | EmptyString => O
  | String c r => if isdigit c then S (count_digits r) else count_digits r
  end.

(** [int(s)] on a string: surrounding white space is dropped, one sign is
    allowed, then a decimal literal of at most [int_max_str_digits]
    digits.  [None] stands for [ValueError]. *)
Definition int_of_str (s : string) : option Z :=
  let t := int_rstrip (int_lstrip s) in
  let negative := match t with String "-" _ => true | _ => false end in
  let literal := match t with
                 | String "-" r => r
                 | String "+" r => r
                 | _ => t
                 end in
  if (int_max_str_digits <? count_digits literal)%nat then None
  else option_map (fun z => if negative then - z else z)
                  (int_digits 0 false literal).

(** [int(x)] where [x] is [None] or a string: [int(None)] raises
    [TypeError], a string that is no literal raises [ValueError]. *)
Definition int (x : option string) : result Z :=
  match x with
  | None => Raise TypeError
  | Some s =>
      match int_of_str s with
      | Some z => Ok z
      | None => Raise ValueError
      end
  end.

(** A dictionary with string keys, in insertion order. *)
Definition dict (V : Type) : Type := list (string * V).

Fixpoint dict_get {V : Type} (k : string) (d : dict V) : option V :=
  match d with
  | [] => None
  | (k', v) :: r => if String.eqb k' k then Some v else dict_get k r
  end.

(** [d[k] = v]: an existing key keeps its place. *)
Fixpoint dict_set {V : Type} (k : string) (v : V) (d : dict V) : dict V :=
  match d with
  | [] => [(k, v)]
  | (k', v') :: r => if String.eqb k' k then (k, v) :: r else (k', v') :: dict_set k v r
  end.

(** [d.update(e)] *)
Definition dict_update {V : Type} (d e : dict V) : dict V :=
  fold_left (fun acc kv => dict_set (fst kv) (snd kv) acc) e d.

End Py.

Import Py.

(* ===================================================================== *)
(** ** Parsed HTML, as BeautifulSoup presents it *)
(* ===================================================================== *)

Module Bs4.

(** A node of the tree that [BeautifulSoup(text, 'html.parser')] builds: a
    string, or a tag with its attribute dictionary and its contents.  The
    soup itself is a tag (named [[document]]).  A string of the class
    [NavigableString] or [CData] is a [Text]; a string of any other class
    ([Comment], [Doctype], [Script], [Stylesheet], [TemplateString], ...)
    is an [OtherString]. *)
Inductive node : Type :=
| Text (s : string)
| OtherString (s : string)
| Tag (name : string) (attrs : dict string) (contents : list node).

(** The elements whose strings the parser gives a class of their own, at
    any depth below them ([DEFAULT_STRING_CONTAINERS] of the HTML tree
    builders). *)
Definition string_container (name : string) : bool :=
  existsb (String.eqb name) ["rt"; "rp"; "style"; "script"; "template"].

(** A subtree as it stands below such an element: none of its strings is
    a [Text]. *)
Fixpoint contained (n : node) : node :=
  match n with
  | Text s => OtherString s
  | OtherString s => OtherString s
  | Tag name attrs cs => Tag name attrs (map contained cs)
  end.

(** Everything below a node, in document order. *)
Fixpoint descendants (n : node) : list node :=
  match n with
  | Text _ => []
  | OtherString _ => []
  | Tag name _ cs =>
      flat_map (fun c => if string_container name
                         then map contained (c :: descendants c)
                         else c :: descendants c) cs
  end.

(** The strings that [get_text] of an element other than a string
    container collects: the descendants of class [NavigableString] or
    [CData], in document order. *)
Definition strings (n : node) : list string :=
  flat_map (fun d => match d with Text s => [s] | _ => [] end) (descendants n).

(** [tag.get_text(strip=True)]: every string stripped, the empty ones
    dropped, the rest concatenated.  The sources call it on [a], [div],
    [h1], [h2], [p], [span] and [strong] elements. *)
Definition get_text_strip (n : node) : string :=
  String.concat ""
    (filter (fun s => negb (String.eqb s "")) (map strip (strings n))).

(** [tag.get(key)] *)
Definition get (key : string) (n : node) : option string :=
  match n with
  | Tag _ attrs _ => dict_get key attrs
  | _ => None
  end.

(** Filters of [find] and [find_all]. *)
Definition named (name : string) (n : node) : bool :=
  match n with
  | Tag t _ _ => String.eqb t name
  | _ => false
  end.

(** [class_=c] for a single class name: [c] is one of the classes listed
    in the [class] attribute. *)
Definition has_class (c : string) (n : node) : bool :=
  match get "class" n with
  | Some v => existsb (String.eqb c) (split_ws v)
  | None => false
  end.

(** [key=value], and [{key: value}] given as [attrs]. *)
Definition attr_is (key value : string) (n : node) : bool :=
  match get key n with
  | Some v => String.eqb v value
  | None => false
  end.

(** [key=True]: the attribute is present. *)
Definition has_attr (key : string) (n : node) : bool :=
  match get key n with
  | Some _ => true
  | None => false
  end.

(** [tag.find(...)]: the first descendant that passes the filter. *)
Definition find (p : node -> bool) (n : node) : option node :=
  List.find p (descendants n).

(** [tag.find_all(...)]: all of them, in document order. *)
Definition find_all (p : node -> bool) (n : node) : list node :=
  filter p (descendants n).

End Bs4.

(* ===================================================================== *)
(** ** The HTTP session, seen from the client *)
(* ===================================================================== *)

Module Http.

(** A [requests.Response]: status, final URL, body, and the tree that
    [html.parser] builds from the body (the parser is taken to accept the
    body). *)
Record response : Type := {
  status_code : Z;
  url : string;
  text : string;
  soup : Bs4.node
}.

(** [session.get] and [session.post] with the arguments the client uses.
    [files] is the content of the opened attachment, if one is sent. *)
Inductive request : Type :=
| GET (target : string) (allow_redirects : bool)
| POST (target : string) (data : dict string) (files : option string)
       (allow_redirects : bool).

(** What a call gives back: a response, or a raised
    [requests.RequestException]. *)
Inductive http_result : Type :=
| NetworkError
| Response (r : response).

(** The portal at one instant. *)
Definition network : Type := request -> http_result.

(** [response.raise_for_status()] raises for 4xx and 5xx. *)
Definition raise_for_status (r : response) : bool :=
  (400 <=? status_code r) && (status_code r <? 600).

(** A computation that talks to the portal: its value and the requests it
    sent, oldest first. *)
Definition NetM (A : Type) : Type := network -> A * list request.

Definition ret {A : Type} (a : A) : NetM A := fun _ => (a, []).

Definition bind {A B : Type} (m : NetM A) (k : A -> NetM B) : NetM B :=
  fun net =>
    let (a, t1) := m net in
    let (b, t2) := k a net in
    (b, (t1 ++ t2)%list).

Definition call (rq : request) : NetM http_result :=
  fun net => (net rq, [rq]).

Definition value {A : Type} (m : NetM A) (net : network) : A := fst (m net).
Definition sent {A : Type} (m : NetM A) (net : network) : list request :=
  snd (m net).

End Http.

Declare Scope net_scope.
Delimit Scope net_scope with net.
Notation "x <- m ;; k" := (Http.bind m (fun x => k))
  (at level 61, m at next level, right associativity) : net_scope.

(** [urllib.parse.urljoin] is the standard library's; the development is
    parametric in it.  The call may raise [ValueError] (an [href] whose
    host part opens a bracket that it does not close, for one):
    [urljoin_raises] tells for which arguments, [urljoin] is the result
    for the others. *)
Class Urllib : Type := {
  urljoin : string -> string -> string;
  urljoin_raises : string -> string -> bool
}.

(* ===================================================================== *)
(** ** medical_portal_client.py *)
(* ===================================================================== *)

Module MedicalPortalClient.

Import Bs4 Http.
Local Open Scope net_scope.

(** *** Data *)

(** A document as [json.load] returns it. *)
Inductive json : Type :=
| JNull
| JBool (b : bool)
| JInt (z : Z)
| JStr (s : string)
| JList (items : list json)
| JDict (members : dict json).

(** The session file on disk: missing, present but not JSON ([json.load]
    raises [JSONDecodeError]), or a JSON document. *)
Inductive snapshot : Type :=
| NoFile
| NotJson
| Document (j : json).

(** The cookie jar [session.cookies], as the [set] calls that went through
    since the jar was last cleared: a call with a value stores a cookie, a
    call whose value is [None] removes the cookies of that name. *)
Inductive jar_entry : Type :=
| Stored (kw : dict json)
| Removed (kw : dict json).

Definition jar : Type := list jar_entry.

(** [requests.cookies.create_cookie] and [CookieJar.set_cookie] are the
    library's: for given keyword arguments they build and store the cookie,
    or raise.  The development is parametric in which exception, if any. *)
Class CookieLib : Type := { cookie_refused : dict json -> option exn }.

(** The fields of a client object that the modelled methods read or write. *)
Record client : Type := {
  base_url : string;
  cookies : jar;
  is_authenticated : bool
}.

(** A message dictionary built by [list_messages]. *)
Record message : Type := {
  m_type : string;
  m_date : option string;
  m_time : option string;
  m_url : option string;
  m_id : option string;
  m_subject : option string;
  m_answered : option bool
}.

Record attachment : Type := {
  a_name : string;
  a_url : string
}.

(** The dictionary built by [get_message_details]. *)
Record message_details : Type := {
  d_url : string;
  d_content : string;
  d_question : string;
  d_answer : string;
  d_date : option string;
  d_time : option string;
  d_sender : option string;
  d_subject : option string;
  d_attachments : list attachment
}.

(** [os.path.exists] and [open(path, 'rb')] ([None]: the open raises). *)
Record filesystem : Type := {
  exists_ : string -> bool;
  open_rb : string -> option string
}.

(** *** Session handling *)

(** [_is_session_valid]: one GET of the protected page, redirects not
    followed; 303 means the portal sends the client to the login page; any
    exception counts as invalid. *)
Definition _is_session_valid (c : client) : NetM bool :=
  r <- call (GET (base_url c ++ "/en/safe") false) ;;
  match r with
  | Response resp => ret (negb (status_code resp =? 303))
  | NetworkError => ret false
  end.

Section Session.
Context {L : CookieLib}.

(** [session_data.get('cookies', [])]: only a dictionary has [get]. *)
Definition get_cookies (session_data : json) : result json :=
  match session_data with
  | JDict d =>
      match dict_get "cookies" d with
      | Some v => Ok v
      | None => Ok (JList [])
      end
  | _ => Raise AttributeError
  end.

(** What a [for] loop runs over: the items of a list, the keys of a
    dictionary, the characters of a string; nothing else in a JSON document
    is iterable. *)
Definition iterate (j : json) : result (list json) :=
  match j with
  | JList l => Ok l
  | JDict d => Ok (map (fun kv => JStr (fst kv)) d)
  | JStr s => Ok (map (fun c => JStr (String c "")) (list_ascii_of_string s))
  | _ => Raise TypeError
  end.

(** [self.session.cookies.set] called with [cookie] unpacked into keyword
    arguments.  The argument must be a mapping, and
    [set(self, name, value, **kwargs)] needs both [name] and [value]:
    [TypeError] otherwise.  With [value] being [None] the call removes by
    name and returns; else the library builds and stores the cookie. *)
Definition cookies_set (j : jar) (cookie : json) : result jar :=
  match cookie with
  | JDict kw =>
      match dict_get "name" kw, dict_get "value" kw with
      | Some _, Some JNull => Ok (j ++ [Removed kw])%list
      | Some _, Some _ =>
          match cookie_refused kw with
          | Some e => Raise e
          | None => Ok (j ++ [Stored kw])%list
          end
      | _, _ => Raise TypeError
      end
  | _ => Raise TypeError
  end.

(** The loop [for cookie in ...] around [self.session.cookies.set]: the
    jar as the loop leaves it, and the exception that stopped it, if any. *)
Fixpoint restore_cookies (j : jar) (items : list json) : jar * option exn :=
  match items with
  | [] => (j, None)
  | cookie :: rest =>
      match cookies_set j cookie with
      | Ok j' => restore_cookies j' rest
      | Raise e => (j, Some e)
      end
  end.

(** The clause [except (json.JSONDecodeError, KeyError)]. *)
Definition caught_on_load (e : exn) : bool :=
  match e with
  | JSONDecodeError | KeyError => true
  | _ => false
  end.

(** The [try] block of [_load_session]: the client as the block leaves it,
    and the exception it raised, if any. *)
Definition load_session_try (c : client) (file : snapshot)
  : NetM (client * option exn) :=
  match file with
  | NoFile => ret (c, None)
  | NotJson => ret (c, Some JSONDecodeError)
  | Document session_data =>
      match Py.bind (get_cookies session_data) iterate with
      | Raise e => ret (c, Some e)
      | Ok items =>
          let (j, stopped) := restore_cookies (cookies c) items in
          let c1 := {| base_url := base_url c; cookies := j;
                       is_authenticated := is_authenticated c |} in
          match stopped with
          | Some e => ret (c1, Some e)
          | None =>
              valid <- _is_session_valid c1 ;;
              if valid
              then ret ({| base_url := base_url c1; cookies := cookies c1;
                           is_authenticated := true |}, None)
              else ret (c1, None)
          end
      end
  end.

(** [_load_session]: nothing happens without a file; an exception of the
    two caught classes clears the jar; any other one leaves the method. *)
Definition _load_session (c : client) (file : snapshot)
  : NetM (client * option exn) :=
  match file with
  | NoFile => ret (c, None)
  | _ =>
      out <- load_session_try c file ;;
      match snd out with
      | Some e =>
          if caught_on_load e
          then ret ({| base_url := base_url (fst out); cookies := [];
                       is_authenticated := is_authenticated (fst out) |}, None)
          else ret out
      | None => ret out
      end
  end.

End Session.

(** The object as [__init__] sets it up before it calls [_load_session]. *)
Definition new_client (base : string) : client :=
  {| base_url := base; cookies := []; is_authenticated := false |}.

(** *** Extraction *)

(** [_get_form_data]: name and value of every hidden input that has a
    non-empty name; a missing value is the empty string. *)
Definition _get_form_data (html : node) : dict string :=
  fold_left
    (fun form_data input_field =>
       let value := match get "value" input_field with
                    | Some v => v
                    | None => ""
                    end in
       match get "name" input_field with
       | Some name =>
           if String.eqb name "" then form_data
           else dict_set name value form_data
       | None => form_data
       end)
    (find_all (fun n => named "input" n && attr_is "type" "hidden" n) html)
    [].

(** Date and time read from the text of a link's [span]. *)
Definition timestamp_of (timestamp_text : string)
  : option (option string * option string) :=
  if String.eqb timestamp_text "" then None
  else
    match split_ws timestamp_text with
    | p0 :: p1 :: rest =>
        if String.eqb (lower p0) "today"
        then Some (Some "Today", Some p1)
        else
          match rest with
          | p2 :: p3 :: _ => Some (Some (p0 ++ " " ++ p1 ++ " " ++ p2), Some p3)
          | [p2] => Some (Some (p0 ++ " " ++ p1), Some p2)
          | [] => None
          end
    | _ => None
    end.

Section Extraction.
Context {U : Urllib}.

(** The body of the loop of [list_messages]: one link, one message. *)
Definition message_of_link (base : string) (link : node) : message :=
  let href := match get "href" link with Some h => h | None => "" end in
  let consult := contains "/safe/consult?" href in
  let url := if consult then Some (urljoin base href) else None in
  let id := if consult && contains "id=" href
            then Some (nth 0 (split "&" (nth 1 (split "id=" href) "")) "")
            else None in
  let url_date := if consult && contains "date=" href
                  then Some (nth 0 (split "&" (nth 1 (split "date=" href) "")) "")
                  else None in
  let subject := option_map get_text_strip (find (named "strong") link) in
  let answered := option_map (fun v => String.eqb (lower v) "true")
                             (get "data-reaction" link) in
  let stamp := match find (named "span") link with
               | Some span_elem => timestamp_of (get_text_strip span_elem)
               | None => None
               end in
  {| m_type := "E-consult";
     m_date := match stamp with Some (d, _) => d | None => url_date end;
     m_time := match stamp with Some (_, t) => t | None => None end;
     m_url := url;
     m_id := id;
     m_subject := subject;
     m_answered := answered |}.

(** The one call of the loop that may raise: [urljoin], made for a consult
    link. *)
Definition link_raises (base : string) (link : node) : bool :=
  let href := match get "href" link with Some h => h | None => "" end in
  contains "/safe/consult?" href && urljoin_raises base href.

(** The messages of one folder of a parsed correspondence page.  An
    exception inside the loop is caught by [except Exception]: the messages
    read so far are dropped and the result is the empty list. *)
Definition messages_of_page (base folder : string) (page : node) : list message :=
  match find (fun n => named "div" n && attr_is "id" folder n) page with
  | None => []
  | Some folder_div =>
      match find (fun n => named "div" n && has_class "button-list" n) folder_div with
      | None => []
      | Some button_list =>
          let message_links :=
            find_all (fun n => named "a" n && has_attr "href" n) button_list in
          if existsb (link_raises base) message_links then []
          else map (message_of_link base) message_links
      end
  end.

(** [list_messages]: nothing when not authenticated, when the request
    fails or when reading the page raises, else the folder's messages. *)
Definition list_messages (c : client) (folder : string) : NetM (list message) :=
  if negb (is_authenticated c) then ret []
  else
    r <- call (GET (base_url c ++ "/en/correspondence?tab=correspondence") true) ;;
    match r with
    | NetworkError => ret []
    | Response resp =>
        if raise_for_status resp then ret []
        else ret (messages_of_page (base_url c) folder (soup resp))
    end.

(** The filter of the attachment links: a non-empty [href] that contains
    one of the extensions. *)
Definition attachment_href (n : node) : bool :=
  match get "href" n with
  | Some x =>
      negb (String.eqb x "") &&
      existsb (fun ext => contains ext (lower x))
              [".pdf"; ".doc"; ".docx"; ".jpg"; ".png"]
  | None => false
  end.

(** The links [get_message_details] takes for attachments. *)
Definition attachment_links (page : node) : list node :=
  find_all (fun n => named "a" n && attachment_href n) page.

(** The one call of the attachment loop that may raise: [urljoin]. *)
Definition attachment_raises (base : string) (link : node) : bool :=
  urljoin_raises base (match get "href" link with Some h => h | None => "" end).

(** The dictionary [get_message_details] builds from a parsed page, when
    nothing raises. *)
Definition details_of_page (base message_url : string) (page : node)
  : message_details :=
  let date :=
    match find (fun n => named "p" n && has_class "small-spacer-bottom" n) page with
    | Some date_elem =>
        let date_text := get_text_strip date_elem in
        if startswith "Date:" date_text
        then Some (strip (replace "Date:" "" date_text))
        else None
    | None => None
    end in
  let question_elem :=
    find (fun n => named "div" n && attr_is "data-speech" "question" n) page in
  let answer_elem :=
    find (fun n => named "div" n && attr_is "data-speech" "answer" n) page in
  let question :=
    match question_elem with
    | Some q =>
        match find (fun n => named "div" n && has_class "content" n) q with
        | Some question_content => get_text_strip question_content
        | None => ""
        end
    | None => ""
    end in
  let answer :=
    match answer_elem with
    | Some a =>
        match find (named "div") a with
        | Some answer_content => get_text_strip answer_content
        | None => ""
        end
    | None => ""
    end in
  let content_parts :=
    ((if String.eqb question "" then [] else [String.append "Question: " question]) ++
     (if String.eqb answer "" then [] else [String.append "Answer: " answer]))%list in
  let sender :=
    match answer_elem with
    | Some a => option_map get_text_strip (find (named "h2") a)
    | None => None
    end in
  let subject :=
    option_map get_text_strip
      (find (fun n => named "h1" n && has_class "no-spacer-bottom" n) page) in
  let attachments :=
    map (fun link =>
           {| a_name := get_text_strip link;
              a_url := urljoin base
                         (match get "href" link with Some h => h | None => "" end) |})
        (attachment_links page) in
  {| d_url := message_url;
     d_content := join (String "010" (String "010" "")) content_parts;
     d_question := question;
     d_answer := answer;
     d_date := date;
     d_time := None;
     d_sender := sender;
     d_subject := subject;
     d_attachments := attachments |}.

(** [get_message_details]: [None] when not authenticated, when the
    request fails or when reading the page raises ([except Exception]),
    else the details read from the page. *)
Definition get_message_details (c : client) (message_url : string)
  : NetM (option message_details) :=
  if negb (is_authenticated c) then ret None
  else
    r <- call (GET message_url true) ;;
    match r with
    | NetworkError => ret None
    | Response resp =>
        if raise_for_status resp then ret None
        else if existsb (attachment_raises (base_url c))
                        (attachment_links (soup resp))
        then ret None
        else ret (Some (details_of_page (base_url c) message_url (soup resp)))
    end.

End Extraction.

(** *** Asking a question *)

(** The attachment to upload: none unless the path is non-empty and exists;
    opening an existing path may still raise. *)
Definition open_attachment (fs : filesystem) (attachment_path : option string)
  : result (option string) :=
  match attachment_path with
  | Some path =>
      if truthy attachment_path && exists_ fs path
      then match open_rb fs path with
           | Some content => Ok (Some content)
           | None => Raise OSError
           end
      else Ok None
  | None => Ok None
  end.

(** [ask_question]: no check of the question's length, and a path that
    does not exist only means that nothing is attached. *)
Definition ask_question (fs : filesystem) (c : client) (question : string)
  (draft : bool) (attachment_path : option string) : NetM bool :=
  if negb (is_authenticated c) then ret false
  else
    let consult_url := base_url c ++ "/en/consult" in
    r1 <- call (GET consult_url true) ;;
    match r1 with
    | NetworkError => ret false
    | Response resp1 =>
        if raise_for_status resp1 then ret false
        else
          let form_data :=
            dict_update (_get_form_data (soup resp1))
              [("question", question); ("draft", if draft then "on" else "")] in
          match open_attachment fs attachment_path with
          | Raise _ => ret false
          | Ok files =>
              r2 <- call (POST consult_url form_data files true) ;;
              match r2 with
              | NetworkError => ret false
              | Response resp2 =>
                  if raise_for_status resp2 then ret false
                  else
                    let t := lower (text resp2) in
                    if contains "question" t &&
                       (contains "submitted" t || contains "sent" t)
                    then ret true
                    else if contains "error" t then ret false
                    else ret true
              end
          end
    end.

End MedicalPortalClient.

(* ===================================================================== *)
(** ** telegram_bot.py *)
(* ===================================================================== *)

Module TelegramMedicalBot.

Import Bs4 Http MedicalPortalClient.
Local Open Scope net_scope.

(** What a write of [last_message_state.json] comes to: [open] and
    [json.dump] go through; [open] raises and the file stays as it was; or
    [open] has emptied the file and the write raises, so that the file no
    longer reads back. *)
Inductive write_outcome : Type :=
| Written
| Refused
| CutShort.

(** The fields of a bot object that the modelled methods read or write,
    and the disk it runs on.  [state_file] is what
    [_load_last_message_state] reads back from [last_message_state.json]:
    the stored identifier, or [None].  [state_file_write] is what a write
    of that file comes to. *)
Record bot : Type := {
  medical_client : client;
  authorized_chat_id : string;
  last_message_id : option Z;
  state_file : option Z;
  state_file_write : write_outcome;
  message_checker_running : bool
}.

(** The outside world at one instant: the portal, and whether the chat
    transport accepts a text ([send_message] raises otherwise). *)
Record instant : Type := {
  web : network;
  telegram : string -> bool
}.

(** The outside world during one poll cycle: instant [0] is the listing of
    the inbox, instant [k] with [k > 0] the [k]-th notification. *)
Definition world : Type := nat -> instant.

(** One call of [_send_message_notification], as the chat sees it. *)
Record delivery : Type := {
  n_message : message;
  n_text : string;
  n_delivered : bool
}.

(** What [ask_command] answers in the chat. *)
Inductive reply : Type :=
| PleaseProvideAQuestion
| QuestionIsTooLong
| SubmittingYourQuestion
| AuthenticationRequired
| SubmittedSuccessfully
| FailedToSubmit.

(** *** Cursor state *)

Definition _load_last_message_state (b : bot) : option Z := state_file b.

(** [_save_last_message_state]: the write sits in a [try] whose [except
    Exception] only logs, so the method returns normally whatever becomes
    of the file. *)
Definition _save_last_message_state (b : bot) (message_id : Z) : bot :=
  {| medical_client := medical_client b;
     authorized_chat_id := authorized_chat_id b;
     last_message_id := last_message_id b;
     state_file := match state_file_write b with
                   | Written => Some message_id
                   | Refused => state_file b
                   | CutShort => None
                   end;
     state_file_write := state_file_write b;
     message_checker_running := message_checker_running b |}.

Definition set_last_message_id (b : bot) (message_id : Z) : bot :=
  {| medical_client := medical_client b;
     authorized_chat_id := authorized_chat_id b;
     last_message_id := Some message_id;
     state_file := state_file b;
     state_file_write := state_file_write b;
     message_checker_running := message_checker_running b |}.

Definition set_running (b : bot) (r : bool) : bot :=
  {| medical_client := medical_client b;
     authorized_chat_id := authorized_chat_id b;
     last_message_id := last_message_id b;
     state_file := state_file b;
     state_file_write := state_file_write b;
     message_checker_running := r |}.

(** The bot as [__init__] leaves it, on a disk that takes the writes. *)
Definition new_bot (c : client) (chat_id : string) (stored : option Z) : bot :=
  {| medical_client := c;
     authorized_chat_id := chat_id;
     last_message_id := stored;
     state_file := stored;
     state_file_write := Written;
     message_checker_running := false |}.

(** The same bot on a disk where a write of the state file comes to [o]. *)
Definition on_disk (o : write_outcome) (b : bot) : bot :=
  {| medical_client := medical_client b;
     authorized_chat_id := authorized_chat_id b;
     last_message_id := last_message_id b;
     state_file := state_file b;
     state_file_write := o;
     message_checker_running := message_checker_running b |}.

Section Workers.
Context {U : Urllib}.

(** *** Synchronous wrappers *)

Definition _ensure_authenticated (b : bot) : NetM bool :=
  if is_authenticated (medical_client b)
  then _is_session_valid (medical_client b)
  else ret false.

Definition _get_messages_sync (b : bot) : NetM (option (list message)) :=
  ok <- _ensure_authenticated b ;;
  if ok
  then (messages <- list_messages (medical_client b) "inbox" ;; ret (Some messages))
  else ret None.

Definition same_id (a b : option string) : bool :=
  match a, b with
  | Some x, Some y => String.eqb x y
  | None, None => true
  | _, _ => false
  end.

Definition _get_message_details_sync (b : bot) (message_id : option string)
  : NetM (option message_details) :=
  ok <- _ensure_authenticated b ;;
  if ok
  then
    messages <- list_messages (medical_client b) "inbox" ;;
    match List.find (fun msg => same_id (m_id msg) message_id && truthy (m_url msg))
                    messages with
    | Some {| m_url := Some url |} => get_message_details (medical_client b) url
    | _ => ret None
    end
  else ret None.

Definition _ask_question_sync (fs : filesystem) (b : bot) (question : string)
  : NetM (option bool) :=
  ok <- _ensure_authenticated b ;;
  if ok
  then (sent_ok <- ask_question fs (medical_client b) question false None ;;
        ret (Some sent_ok))
  else ret None.

(** *** The /ask command *)

Definition ask_command (fs : filesystem) (b : bot) (chat_id : string)
  (args : list string) : NetM (list reply) :=
  if negb (String.eqb chat_id (authorized_chat_id b)) then ret []
  else
    match args with
    | [] => ret [PleaseProvideAQuestion]
    | _ =>
        let question := join " " args in
        if (600 <? String.length question)%nat then ret [QuestionIsTooLong]
        else
          success <- _ask_question_sync fs b question ;;
          ret [SubmittingYourQuestion;
               match success with
               | None => AuthenticationRequired
               | Some true => SubmittedSuccessfully
               | Some false => FailedToSubmit
               end]
    end.

(** *** Notifications *)

Definition nl : string := String "010" "".

(** The symbol that opens a notification, as the bytes of the source. *)
Definition bell : string :=
  String "239" (String "163" (String "191" (String "195" (String "188"
    (String "195" (String "174" (String "195" (String "174" "")))))))).

Definition notification_header : string :=
  bell ++ " *New Message Received*" ++ nl ++ nl.

Definition line (label : string) (field : option string) (ending : string)
  : string :=
  match field with
  | Some v => if String.eqb v "" then "" else label ++ v ++ ending
  | None => ""
  end.

(** The text [_send_message_notification] composes: from the details when
    there are some, else from the listing's message. *)
Definition notification_text (msg : message) (details : option message_details)
  : string :=
  match details with
  | Some d =>
      notification_header ++
      line "*Subject:* " (d_subject d) nl ++
      line "*Date:* " (d_date d) nl ++
      line "*From:* " (d_sender d) (nl ++ nl) ++
      (if String.eqb (d_content d) "" then ""
       else
         let content :=
           if (1000 <? String.length (d_content d))%nat
           then take 1000 (d_content d) ++ "..."
           else d_content d in
         "*Content:*" ++ nl ++ content ++ nl)
  | None =>
      notification_header ++
      line "*Subject:* " (m_subject msg) nl ++
      line "*Date:* " (m_date msg) nl
  end.

(** [_send_message_notification]: look the details up, compose, send; an
    exception of the send is logged and goes no further. *)
Definition _send_message_notification (i : instant) (b : bot) (msg : message)
  : delivery :=
  let details := value (_get_message_details_sync b (m_id msg)) (web i) in
  let notification := notification_text msg details in
  {| n_message := msg;
     n_text := notification;
     n_delivered := telegram i notification |}.

(** *** The poll cycle *)

(** The loop over the listing.  [new_last_message_id] and [new_messages]
    are the loop's two variables; [int] may raise. *)
Fixpoint diff_loop (last : option Z) (messages : list message)
  (new_last_message_id : Z) (new_messages : list message)
  : result (Z * list message) :=
  match messages with
  | [] => Ok (new_last_message_id, new_messages)
  | msg :: rest =>
      if negb (truthy_bool (m_answered msg))
      then diff_loop last rest new_last_message_id new_messages
      else
        match int (m_id msg) with
        | Raise e => Raise e
        | Ok msg_id =>
            let new_last := Z.max new_last_message_id msg_id in
            if truthy_int last &&
               match last with Some l => msg_id >? l | None => false end
            then diff_loop last rest new_last (new_messages ++ [msg])%list
            else diff_loop last rest new_last new_messages
        end
  end.

(** The loop over [reversed(new_messages)], one instant per notification. *)
Fixpoint notify_each (w : world) (b : bot) (k : nat) (msgs : list message)
  : list delivery :=
  match msgs with
  | [] => []
  | msg :: rest =>
      _send_message_notification (w k) b msg :: notify_each w b (S k) rest
  end.

(** The [try] block of [check_for_new_messages]: the notifications it
    sent, and the bot it leaves or the exception it raised. *)
Definition check_try (w : world) (b : bot) : list delivery * result bot :=
  match value (_get_messages_sync b) (web (w O)) with
  | None => ([], Ok b)
  | Some [] => ([], Ok b)
  | Some messages =>
      match diff_loop (last_message_id b) messages 0 [] with
      | Raise e => ([], Raise e)
      | Ok (new_last_message_id, new_messages) =>
          let sent := notify_each w b 1 (rev new_messages) in
          (sent,
           Ok (_save_last_message_state
                 (set_last_message_id b new_last_message_id)
                 new_last_message_id))
      end
  end.

(** [check_for_new_messages]: an exception of the [try] block is logged
    and the bot stays as it was. *)
Definition check_for_new_messages (w : world) (b : bot) : bot * list delivery :=
  if negb (message_checker_running b) then (b, [])
  else
    match check_try w b with
    | (sent, Ok b') => (b', sent)
    | (sent, Raise _) => (b, sent)
    end.

(** [message_checker_worker], one cycle per world of [ws]: the bot at the
    end and the notifications of each cycle. *)
Fixpoint poll (ws : list world) (b : bot) : bot * list (list delivery) :=
  match ws with
  | [] => (b, [])
  | w :: rest =>
      let (b1, sent) := check_for_new_messages w b in
      let (b2, later) := poll rest b1 in
      (b2, sent :: later)
  end.

Definition message_checker_worker (ws : list world) (b : bot)
  : bot * list (list delivery) :=
  poll ws (set_running b true).

End Workers.

End TelegramMedicalBot.

(* ===================================================================== *)
(** ** example_usage.py *)
(* ===================================================================== *)

Module ExampleUsage.

Import Http MedicalPortalClient.
Local Open Scope net_scope.

(** What choice 4 of the menu prints. *)
Inductive printed : Type :=
| QuestionIsRequired
| QuestionIsTooLong
| AttachmentFileNotFound
| SubmittingQuestion
| QuestionSubmitted
| FailedToSubmitQuestion.

(** Choice 4 of the menu, "Ask a question to the doctor", with the three
    lines the user may be asked for. *)
Definition ask_a_question (fs : filesystem) (c : client)
  (question_line draft_line attachment_line : string) : NetM (list printed) :=
  let question := strip question_line in
  if String.eqb question "" then ret [QuestionIsRequired]
  else if (600 <? String.length question)%nat then ret [QuestionIsTooLong]
  else
    let draft := String.eqb (lower (strip draft_line)) "y" in
    let attachment := strip attachment_line in
    if negb (String.eqb attachment "") && negb (exists_ fs attachment)
    then ret [AttachmentFileNotFound]
    else
      ok <- ask_question fs c question draft
              (if String.eqb attachment "" then None else Some attachment) ;;
      ret [SubmittingQuestion;
           if ok then QuestionSubmitted else FailedToSubmitQuestion].

End ExampleUsage.

(* ===================================================================== *)
(** ** medical_portal_client.py: signing in and out *)
(* ===================================================================== *)

Module Authentication.

Import Bs4 Http MedicalPortalClient.
Local Open Scope net_scope.

(** The dataclass [TwoFactorAuthData]; [timestamp] is the reading of the
    clock when the object was made. *)
Record TwoFactorAuthData : Type := {
  form_data : dict string;
  sms_url : string;
  timestamp : Z
}.

(** What [begin_authentication] returns: [True], [False], or the data of
    the second step. *)
Inductive begun : Type :=
| ReturnsTrue
| ReturnsFalse
| ReturnsTwoFactor (data : TwoFactorAuthData).

(** A call of one of the two sign-in methods: the client as the call
    leaves it, what it returned, and whether it called [_save_session]. *)
Record signin (A : Type) : Type := {
  client_after : client;
  returned : A;
  session_saved : bool
}.

Arguments client_after {A} s.
Arguments returned {A} s.
Arguments session_saved {A} s.

(** [self.is_authenticated = True] *)
Definition authenticated (c : client) : client :=
  {| base_url := base_url c; cookies := cookies c; is_authenticated := true |}.

(** The two fragments that tell the login page. *)
Definition login_page (body : string) : bool :=
  contains "Sign in" body && contains "Enter your email address" body.

(** [begin_authentication]; [now] is what [datetime.now()] gives. *)
Definition begin_authentication (now : Z) (c : client) (email password : string)
  : NetM (signin begun) :=
  let failed := {| client_after := c; returned := ReturnsFalse;
                   session_saved := false |} in
  let login_url := base_url c ++ "/en/login/account" in
  r1 <- call (GET login_url true) ;;
  match r1 with
  | NetworkError => ret failed
  | Response resp1 =>
      if raise_for_status resp1 then ret failed
      else
        let fields :=
          dict_update (_get_form_data (soup resp1))
                      [("name", email); ("password", password)] in
        r2 <- call (POST login_url fields None true) ;;
        match r2 with
        | NetworkError => ret failed
        | Response resp2 =>
            if raise_for_status resp2 then ret failed
            else if contains "/login/sms" (url resp2)
            then ret {| client_after := c;
                        returned :=
                          ReturnsTwoFactor
                            {| form_data := _get_form_data (soup resp2);
                               sms_url := base_url c ++ "/en/login/sms";
                               timestamp := now |};
                        session_saved := false |}
            else if contains "/login" (url resp2) then ret failed
            else if login_page (text resp2) then ret failed
            else ret {| client_after := authenticated c;
                        returned := ReturnsTrue;
                        session_saved := true |}
        end
  end.

(** [complete_two_factor_auth] *)
Definition complete_two_factor_auth (c : client) (twofa_data : TwoFactorAuthData)
  (sms_code : string) : NetM (signin bool) :=
  let failed := {| client_after := c; returned := false;
                   session_saved := false |} in
  let fields := dict_update (form_data twofa_data) [("sms", sms_code)] in
  r <- call (POST (sms_url twofa_data) fields None true) ;;
  match r with
  | NetworkError => ret failed
  | Response resp =>
      if raise_for_status resp then ret failed
      else if contains "/login" (url resp) && negb (contains "/sms" (url resp))
      then ret failed
      else if login_page (text resp) then ret failed
      else ret {| client_after := authenticated c;
                  returned := true;
                  session_saved := true |}
  end.

(** [logout]: whatever the portal answers, the jar is emptied, the flag is
    cleared and the session file is removed (the removal is taken to
    succeed).  The result is the client and the session file afterwards. *)
Definition logout (c : client) (file : snapshot) : NetM (client * snapshot) :=
  _ <- call (GET (base_url c ++ "/en/logout") true) ;;
  ret ({| base_url := base_url c; cookies := []; is_authenticated := false |},
       NoFile).

End Authentication.

(* ===================================================================== *)
(** ** telegram_bot.py: the command handlers *)
(* ===================================================================== *)

Module Handlers.

Import Bs4 Http MedicalPortalClient TelegramMedicalBot Authentication.
Local Open Scope net_scope.

(** The states a handler of the conversation returns. *)
Inductive conversation : Type :=
| END
| WAITING_FOR_SMS_CODE.

(** The two keys the handlers keep in [context.user_data]. *)
Record user_data : Type := {
  twofa_data : option TwoFactorAuthData;
  messages_list : option (list message)
}.

(** An [InlineKeyboardButton]. *)
Record button : Type := {
  button_text : string;
  callback_data : string
}.

(** What a handler says in the chat, by [reply_text] or
    [edit_message_text]. *)
Inductive said : Type :=
| Welcome
| Help
| FetchingYourMessages
| AuthenticationRequiredUseAuth
| NoMessagesFound
| ErrorFetchingMessages
| MessageList (body : string) (keyboard : list button)
| StartingAuthentication
| AuthenticationSuccessful
| TwoFactorRequired
| AuthenticationFailed
| NoTwoFactorSession
| TwoFactorSuccessful
| InvalidSmsCode
| AuthenticationCancelled
| NoMessageListFound
| MessageDetails (body : string) (keyboard : list button)
| CouldNotRetrieveDetails.

(** What a handler of the conversation leaves behind. *)
Record turn : Type := {
  bot_after : bot;
  data_after : user_data;
  state : conversation;
  replies : list said
}.

Definition set_medical_client (b : bot) (c : client) : bot :=
  {| medical_client := c;
     authorized_chat_id := authorized_chat_id b;
     last_message_id := last_message_id b;
     state_file := state_file b;
     state_file_write := state_file_write b;
     message_checker_running := message_checker_running b |}.

(** [_is_authorized_chat] *)
Definition _is_authorized_chat (b : bot) (chat_id : string) : bool :=
  String.eqb chat_id (authorized_chat_id b).

(** [s[n:]] *)
Fixpoint drop (n : nat) (s : string) : string :=
  match n, s with
  | S k, String _ r => drop k r
  | _, _ => s
  end.

(** [str(n)] for a length. *)
Definition str_of_nat (n : nat) : string :=
  NilEmpty.string_of_uint (Nat.to_uint n).

(** The symbols of the texts, as the bytes of the source. *)
Definition page_mark : string :=
  String "239" (String "163" (String "191" (String "195" (String "188"
    (String "195" (String "172" (String "195" (String "145" "")))))))).

Definition clipboard_mark : string :=
  String "239" (String "163" (String "191" (String "195" (String "188"
    (String "195" (String "172" (String "195" (String "163" "")))))))).

Definition bullet_mark : string :=
  String "226" (String "128" (String "154" (String "195" (String "132"
    (String "194" (String "162" "")))))).

Definition back_mark : string :=
  String "226" (String "128" (String "154" (String "194" (String "168"
    (String "195" (String "150" (String "195" (String "148" (String "226"
    (String "136" (String "143" (String "195" (String "168"
    ""))))))))))))).

Definition start_command (b : bot) (chat_id : string) : list said :=
  if _is_authorized_chat b chat_id then [Welcome] else [].

Definition help_command (b : bot) (chat_id : string) : list said :=
  if _is_authorized_chat b chat_id then [Help] else [].

(** One button of the list.  Every message dictionary has the keys
    [subject] and [id], so the defaults of the two [get] calls never apply:
    a subject that is [None] cannot be sliced ([TypeError]), an identifier
    that is [None] is printed as [None]. *)
Definition message_button (msg : message) : result button :=
  match m_subject msg with
  | None => Raise TypeError
  | Some subject =>
      Ok {| button_text :=
              page_mark ++ " " ++ take 30 subject ++ "..." ++
              match m_date msg with
              | Some d => if String.eqb d "" then "" else " (" ++ d ++ ")"
              | None => ""
              end;
            callback_data :=
              "msg_" ++ match m_id msg with Some id => id | None => "None" end |}
  end.

(** The loop of [_create_message_list_display]. *)
Fixpoint message_buttons (msgs : list message) : result (list button) :=
  match msgs with
  | [] => Ok []
  | msg :: rest =>
      match message_button msg with
      | Raise e => Raise e
      | Ok b =>
          match message_buttons rest with
          | Raise e => Raise e
          | Ok bs => Ok (b :: bs)
          end
      end
  end.

(** [_create_message_list_display]: a button for each of the first ten
    messages, and the text above them. *)
Definition _create_message_list_display (messages : list message)
  : result (string * list button) :=
  match message_buttons (firstn 10 messages) with
  | Raise e => Raise e
  | Ok keyboard =>
      Ok (clipboard_mark ++ " *Your Messages* (" ++
          str_of_nat (List.length messages) ++ " total)" ++ nl ++ nl ++
          "Click on a message to view details:",
          keyboard)
  end.

Section Commands.
Context {U : Urllib}.

(** [messages_command]: the data it leaves in [context.user_data] and what
    it says.  The list is stored before the display is built, and an
    exception of the display is answered like any other. *)
Definition messages_command (b : bot) (chat_id : string) (data : user_data)
  : NetM (user_data * list said) :=
  if negb (_is_authorized_chat b chat_id) then ret (data, [])
  else
    messages <- _get_messages_sync b ;;
    match messages with
    | None => ret (data, [FetchingYourMessages; AuthenticationRequiredUseAuth])
    | Some [] => ret (data, [FetchingYourMessages; NoMessagesFound])
    | Some msgs =>
        let stored := {| twofa_data := twofa_data data;
                         messages_list := Some msgs |} in
        match _create_message_list_display msgs with
        | Ok (body, keyboard) =>
            ret (stored, [FetchingYourMessages; MessageList body keyboard])
        | Raise _ => ret (stored, [FetchingYourMessages; ErrorFetchingMessages])
        end
    end.

Definition back_button : button :=
  {| button_text := back_mark ++ " Back to Messages";
     callback_data := "back_to_messages" |}.

(** The text of the details of one message. *)
Definition details_text (d : message_details) : string :=
  page_mark ++ " *Message Details*" ++ nl ++ nl ++
  line "*Subject:* " (d_subject d) nl ++
  line "*Date:* " (d_date d) nl ++
  line "*From:* " (d_sender d) (nl ++ nl) ++
  (if String.eqb (d_content d) "" then ""
   else "*Content:*" ++ nl ++ d_content d ++ nl) ++
  match d_attachments d with
  | [] => ""
  | atts =>
      nl ++ "*Attachments:*" ++ nl ++
      String.concat "" (map (fun att => bullet_mark ++ " " ++ a_name att ++ nl) atts)
  end.

(** [handle_callback_query] for the data of the pressed button.  Building
    the list again is not inside a [try]: its exception leaves the
    handler. *)
Definition handle_callback_query (b : bot) (chat_id : string) (data : user_data)
  (query_data : string) : NetM (result (list said)) :=
  if negb (_is_authorized_chat b chat_id) then ret (Ok [])
  else if String.eqb query_data "back_to_messages" then
    match messages_list data with
    | None | Some [] => ret (Ok [NoMessageListFound])
    | Some msgs =>
        match _create_message_list_display msgs with
        | Ok (body, keyboard) => ret (Ok [MessageList body keyboard])
        | Raise e => ret (Raise e)
        end
    end
  else if startswith "msg_" query_data then
    message_details <- _get_message_details_sync b (Some (drop 4 query_data)) ;;
    match message_details with
    | Some d => ret (Ok [MessageDetails (details_text d) [back_button]])
    | None => ret (Ok [CouldNotRetrieveDetails])
    end
  else ret (Ok []).

End Commands.

(** [start_auth], with the credentials of the bot's configuration. *)
Definition start_auth (now : Z) (email password : string) (b : bot)
  (chat_id : string) (data : user_data) : NetM turn :=
  if negb (_is_authorized_chat b chat_id)
  then ret {| bot_after := b; data_after := data; state := END; replies := [] |}
  else
    out <- begin_authentication now (medical_client b) email password ;;
    let b' := set_medical_client b (client_after out) in
    match returned out with
    | ReturnsTrue =>
        ret {| bot_after := b'; data_after := data; state := END;
               replies := [StartingAuthentication; AuthenticationSuccessful] |}
    | ReturnsTwoFactor twofa =>
        ret {| bot_after := b';
               data_after := {| twofa_data := Some twofa;
                                messages_list := messages_list data |};
               state := WAITING_FOR_SMS_CODE;
               replies := [StartingAuthentication; TwoFactorRequired] |}
    | ReturnsFalse =>
        ret {| bot_after := b'; data_after := data; state := END;
               replies := [StartingAuthentication; AuthenticationFailed] |}
    end.

(** [handle_sms_code] for the text the user sent. *)
Definition handle_sms_code (b : bot) (chat_id : string) (data : user_data)
  (message_text : string) : NetM turn :=
  if negb (_is_authorized_chat b chat_id)
  then ret {| bot_after := b; data_after := data; state := END; replies := [] |}
  else
    let sms_code := strip message_text in
    match twofa_data data with
    | None =>
        ret {| bot_after := b; data_after := data; state := END;
               replies := [NoTwoFactorSession] |}
    | Some twofa =>
        out <- complete_two_factor_auth (medical_client b) twofa sms_code ;;
        let b' := set_medical_client b (client_after out) in
        if returned out
        then ret {| bot_after := b';
                    data_after := {| twofa_data := None;
                                     messages_list := messages_list data |};
                    state := END;
                    replies := [TwoFactorSuccessful] |}
        else ret {| bot_after := b'; data_after := data;
                    state := WAITING_FOR_SMS_CODE;
                    replies := [InvalidSmsCode] |}
    end.

(** [cancel_auth] *)
Definition cancel_auth (b : bot) (chat_id : string) (data : user_data) : turn :=
  {| bot_after := b; data_after := data; state := END;
     replies := if _is_authorized_chat b chat_id
                then [AuthenticationCancelled] else [] |}.

End Handlers.

(* ===================================================================== *)
(** ** Notions used to state the properties *)
(* ===================================================================== *)

Module Notions.

Import MedicalPortalClient TelegramMedicalBot.

(** The record counts as answered for the poll cycle. *)
Definition answered (m : message) : bool := truthy_bool (m_answered m).

(** The record's identifier is a decimal literal. *)
Definition numeric (m : message) : Prop := exists z, int (m_id m) = Ok z.

(** The identifier of a record whose identifier is numeric. *)
Definition identifier (m : message) : Z :=
  match int (m_id m) with
  | Ok z => z
  | Raise _ => 0
  end.

(** Identifiers of the answered records, in listing order. *)
Definition answered_ids (msgs : list message) : list Z :=
  map identifier (filter answered msgs).


(** The value a completed cycle gives the cursor. *)
Definition observed (msgs : list message) : Z :=
  fold_left Z.max (answered_ids msgs) 0.

(** The record is answered and lies above a cursor [c]. *)
Definition above (c : Z) (m : message) : bool :=
  answered m && (identifier m >? c).

(** The records a cycle takes for new, given the bot's cursor. *)
Definition fresh (last : option Z) (m : message) : bool :=
  match last with
  | Some c => negb (c =? 0) && above c m
  | None => false
  end.



Definition question_content (block : Bs4.node) : option Bs4.node :=
  Bs4.find (fun n => Bs4.named "div" n && Bs4.has_class "content" n) block.

(** Order on cursors: an absent cursor is below every cursor. *)
Definition cursor_le (a b : option Z) : Prop :=
  match a, b with
  | None, _ => True
  | Some x, Some y => x <= y
  | Some _, None => False
  end.

(** The listing [_get_messages_sync] obtains at the start of a cycle. *)
Definition listing {U : Urllib} (w : world) (b : bot) : option (list message) :=
  Http.value (_get_messages_sync b) (web (w O)).

(** Every cycle of a run that can complete (its listing is not empty and
    the answered records have numeric identifiers) sees a listing whose
    value is not below the cursor the bot holds at that moment. *)
Fixpoint keeps_up {U : Urllib} (ws : list world) (b : bot) : Prop :=
  match ws with
  | [] => True
  | w :: rest =>
      (forall msgs, listing w b = Some msgs -> msgs <> [] ->
                    Forall numeric (filter answered msgs) ->
                    cursor_le (last_message_id b) (Some (observed msgs))) /\
      keeps_up rest (fst (check_for_new_messages w b))
  end.

End Notions.

(* ===================================================================== *)
(** ** Concrete portals, bots and pages *)
(* ===================================================================== *)

Module Scenarios.

Import Bs4 Http MedicalPortalClient TelegramMedicalBot Notions.

(** A [urljoin] for absolute paths on the portal's host. *)
Definition join_on_host : Urllib :=
  {| urljoin base href := base ++ href;
     urljoin_raises _ _ := false |}.


(** A cookie library that stores whatever it is given. *)
Definition lenient_cookies : CookieLib := {| cookie_refused _ := None |}.

Definition host : string := "https://portal.example".

Definition page (contents : list node) : node := Tag "[document]" [] contents.

Definition ok (body : string) (tree : node) : http_result :=
  Response {| status_code := 200; url := ""; text := body; soup := tree |}.

(** An entry of the inbox as the portal renders it. *)
Definition entry (id reaction : string) : node :=
  Tag "a" [("href", "/safe/consult?id=" ++ id ++ "&date=2025-10-03");
           ("data-reaction", reaction)]
      [Tag "strong" [] [Text (" Consult " ++ id ++ " ")];
       Tag "span" [] [Text "3 October 2025 15:56"]].

(** An entry whose link does not carry an identifier. *)
Definition entry_without_id (reaction : string) : node :=
  Tag "a" [("href", "/safe/other"); ("data-reaction", reaction)]
      [Tag "strong" [] [Text "Notice"]].

Definition correspondence (entries : list node) : node :=
  page [Tag "div" [("id", "inbox")]
          [Tag "h2" [] [Text "Inbox"];
           Tag "div" [("class", "list button-list")] entries]].

(** A portal with a live session that serves the given inbox and has no
    detail pages. *)
Definition portal (entries : list node) : network :=
  fun rq =>
    match rq with
    | GET target _ =>
        if String.eqb target (host ++ "/en/safe") then ok "" (page [])
        else if String.eqb target (host ++ "/en/correspondence?tab=correspondence")
        then ok "" (correspondence entries)
        else NetworkError
    | POST _ _ _ _ => NetworkError
    end.

(** The same inbox at every instant of the cycle; [accepts] tells which
    notifications the chat takes. *)
Definition during (entries : list node) (accepts : nat -> bool) : world :=
  fun k => {| web := portal entries; telegram := fun _ => accepts k |}.

Definition always : nat -> bool := fun _ => true.
Definition never : nat -> bool := fun _ => false.

Definition logged_in : client :=
  {| base_url := host; cookies := []; is_authenticated := true |}.

(** A running bot whose cursor, in memory and on disk, is [cursor]. *)
Definition bot_at (cursor : option Z) : bot :=
  set_running (new_bot logged_in "42" cursor) true.

(** Identifiers of the records a cycle notified, in order of sending. *)
Definition notified (sent : list delivery) : list (option string) :=
  map (fun d => m_id (n_message d)) sent.

(** The listing the bot reads from an inbox with the given entries. *)
Definition listed (entries : list node) : list message :=
  @messages_of_page join_on_host host "inbox" (correspondence entries).

(** A world that starts with one instant and goes on as another world. *)
Definition followed_by (first : instant) (later : world) : world :=
  fun k => match k with O => first | S _ => later k end.

(** Identifier and outcome of each notification of each cycle of a run. *)
Definition outcomes (run : list (list delivery))
  : list (list (option string * bool)) :=
  map (map (fun d => (m_id (n_message d), n_delivered d))) run.

(** A detail page with a question block and, optionally, an answer block. *)
Definition question_div (contents : list node) : node :=
  Tag "div" [("data-speech", "question")] contents.

Definition detail_page (blocks : list node) : node :=
  page (Tag "h1" [("class", "no-spacer-bottom")] [Text "Blood test"] ::
        Tag "p" [("class", "small-spacer-bottom")] [Text "Date: 3 October 2025"] ::
        blocks).

(** A portal that serves one page at one address. *)
Definition serving (address : string) (tree : node) : network :=
  fun rq =>
    match rq with
    | GET target _ =>
        if String.eqb target address then ok "" tree else NetworkError
    | POST _ _ _ _ => NetworkError
    end.

(** A portal whose consult form accepts every submission. *)
Definition consult_portal : network :=
  fun rq =>
    match rq with
    | GET target _ =>
        if String.eqb target (host ++ "/en/safe") then ok "" (page [])
        else ok "" (page [Tag "input" [("type", "hidden"); ("name", "csrf");
                                       ("value", "t0k3n")] []])
    | POST _ _ _ _ => ok "Your question has been sent." (page [])
    end.

(** A file system without any file. *)
Definition empty_disk : filesystem :=
  {| exists_ := fun _ => false; open_rb := fun _ => None |}.

(** A text of [n] characters. *)
Definition text_of_length (n : nat) : string :=
  string_of_list_ascii (repeat "a"%char n).

End Scenarios.

(* ===================================================================== *)
(** ** Notions for the sign-in, the forms and the handlers *)
(* ===================================================================== *)

Module FormNotions.

Import Bs4 Http MedicalPortalClient TelegramMedicalBot Authentication Handlers.

(** The hidden inputs of a page, in document order. *)
Definition hidden_inputs (html : node) : list node :=
  find_all (fun n => named "input" n && attr_is "type" "hidden" n) html.

(** The input carries the name [k]. *)
Definition is_named (k : string) (n : node) : bool :=
  match get "name" n with
  | Some x => String.eqb x k
  | None => false
  end.

(** The value an input submits. *)
Definition submitted_value (n : node) : string :=
  match get "value" n with
  | Some v => v
  | None => ""
  end.

(** The request is a GET. *)
Definition is_get (rq : request) : bool :=
  match rq with
  | GET _ _ => true
  | POST _ _ _ _ => false
  end.

(** The probe of the session. *)
Definition probe (c : client) : request := GET (base_url c ++ "/en/safe") false.

(** The combined text that [get_message_details] stores as [content]. *)
Definition content_of (question answer : string) : string :=
  if String.eqb question "" then
    (if String.eqb answer "" then "" else "Answer: " ++ answer)
  else
    (if String.eqb answer "" then "Question: " ++ question
     else "Question: " ++ question ++ nl ++ nl ++ "Answer: " ++ answer).

(** The cursor is absent or not negative. *)
Definition cursor_not_negative (o : option Z) : Prop :=
  match o with
  | Some c => 0 <= c
  | None => True
  end.

(** The identifier as a button prints it. *)
Definition printed_id (m : message) : string :=
  match m_id m with
  | Some id => id
  | None => "None"
  end.

(** A portal whose login form leads to the SMS page, and whose SMS form
    shows the SMS page again. *)
Definition sms_portal (base : string) : network :=
  fun rq =>
    match rq with
    | GET _ _ =>
        Response {| status_code := 200; url := base ++ "/en/login/account";
                    text := "Sign in";
                    soup := Tag "[document]" []
                              [Tag "input" [("type", "hidden"); ("name", "csrf");
                                            ("value", "a1")] [];
                               Tag "input" [("type", "hidden"); ("name", "password");
                                            ("value", "")] []] |}
    | POST _ _ _ _ =>
        Response {| status_code := 200; url := base ++ "/en/login/sms";
                    text := "Enter the code";
                    soup := Tag "[document]" []
                              [Tag "input" [("type", "hidden"); ("name", "csrf");
                                            ("value", "b2")] [];
                               Tag "input" [("type", "hidden"); ("name", "sms");
                                            ("value", "")] []] |}
    end.

(** The two requests of [begin_authentication]: the GET of the login
    form, and the POST of the fields built from the page [login_form]. *)
Definition login_get (c : client) : request :=
  GET (base_url c ++ "/en/login/account") true.

Definition login_post (c : client) (email password : string)
  (login_form : response) : request :=
  POST (base_url c ++ "/en/login/account")
       (dict_update (_get_form_data (soup login_form))
                    [("name", email); ("password", password)])
       None true.

(** The request of [complete_two_factor_auth]. *)
Definition sms_post (twofa : TwoFactorAuthData) (sms_code : string) : request :=
  POST (sms_url twofa) (dict_update (form_data twofa) [("sms", sms_code)])
       None true.

(** A disk on which every path exists and none can be opened. *)
Definition locked_disk : filesystem :=
  {| exists_ := fun _ => true; open_rb := fun _ => None |}.

End FormNotions.

(* ===================================================================== *)
(** ** Properties *)
(* ===================================================================== *)

Import Bs4 Http MedicalPortalClient TelegramMedicalBot Notions Scenarios.

(** *** Integers and lists *)

Lemma int_raises (x : option string) (e : exn) :
  int x = Raise e -> e = TypeError \/ e = ValueError.
Proof.
  unfold int. destruct x as [s|].
  - destruct (int_of_str s); intros H; [discriminate|].
    injection H as <-. now right.
  - intros H. injection H as <-. now left.
Qed.

Lemma identifier_of (m : message) (z : Z) :
  int (m_id m) = Ok z -> identifier m = z.
Proof. unfold identifier. now intros ->. Qed.


Lemma fold_max_lower (l : list Z) : forall n, n <= fold_left Z.max l n.
Proof.
  induction l as [|x r IH]; intros n; simpl; [lia|].
  specialize (IH (Z.max n x)). lia.
Qed.

Lemma fold_max_upper (l : list Z) :
  forall n z, In z l -> z <= fold_left Z.max l n.
Proof.
  induction l as [|x r IH]; intros n z; simpl; [tauto|].
  intros [->|H].
  - pose proof (fold_max_lower r (Z.max n z)). lia.
  - now apply IH.
Qed.

Lemma filter_twice (A : Type) (p : A -> bool) (l : list A) :
  filter p (filter p l) = filter p l.
Proof.
  induction l as [|a l IH]; simpl; [reflexivity|].
  destruct (p a) eqn:E; simpl; [rewrite E|]; congruence.
Qed.

(** *** The loop over the listing *)

Lemma fresh_answered (last : option Z) (m : message) :
  fresh last m = true -> answered m = true.
Proof.
  unfold fresh, above. destruct last as [c|]; [|discriminate].
  destruct (answered m); [reflexivity|].
  now rewrite andb_false_r.
Qed.

Lemma diff_loop_answered_only (last : option Z) (msgs : list message) :
  forall n acc,
    diff_loop last msgs n acc = diff_loop last (filter answered msgs) n acc.
Proof.
  induction msgs as [|m r IH]; intros n acc; [reflexivity|].
  simpl. change (truthy_bool (m_answered m)) with (answered m).
  destruct (answered m) eqn:E; simpl; [|apply IH].
  change (truthy_bool (m_answered m)) with (answered m). rewrite E. simpl.
  destruct (int (m_id m)); [|reflexivity].
  destruct (truthy_int last && _); apply IH.
Qed.

Lemma diff_loop_ok (last : option Z) (msgs : list message) :
  forall n acc n' new,
    diff_loop last msgs n acc = Ok (n', new) ->
    n' = fold_left Z.max (answered_ids msgs) n /\
    new = (acc ++ filter (fresh last) msgs)%list /\
    Forall numeric (filter answered msgs).
Proof.
  unfold answered_ids.
  induction msgs as [|m r IH]; intros n acc n' new; simpl.
  - intros H. injection H as <- <-. rewrite app_nil_r. auto.
  - change (truthy_bool (m_answered m)) with (answered m).
    destruct (answered m) eqn:E; simpl.
    + destruct (int (m_id m)) as [z|e] eqn:Ez; [|discriminate].
      assert (Hf : fresh last m =
                   truthy_int last &&
                   match last with Some l => z >? l | None => false end).
      { unfold fresh, above. rewrite E, (identifier_of _ Ez).
        destruct last; reflexivity. }
      rewrite Hf, (identifier_of _ Ez).
      destruct (truthy_int last && _); intros H;
        destruct (IH _ _ _ _ H) as (-> & -> & Hnum);
        (split; [reflexivity|split;
           [now rewrite <- ?app_assoc|constructor; [now exists z|assumption]]]).
    + assert (Hf : fresh last m = false).
      { destruct (fresh last m) eqn:F; [|reflexivity].
        apply fresh_answered in F. congruence. }
      rewrite Hf. apply IH.
Qed.

Lemma diff_loop_completes (last : option Z) (msgs : list message) :
  forall n acc,
    Forall numeric (filter answered msgs) ->
    diff_loop last msgs n acc =
    Ok (fold_left Z.max (answered_ids msgs) n,
        (acc ++ filter (fresh last) msgs)%list).
Proof.
  intros n acc Hnum.
  destruct (diff_loop last msgs n acc) as [[n' new]|e] eqn:E.
  - destruct (diff_loop_ok _ _ _ _ E) as (-> & -> & _). reflexivity.
  - exfalso. revert n acc Hnum E.
    induction msgs as [|m r IH]; intros n acc; simpl; [discriminate|].
    change (truthy_bool (m_answered m)) with (answered m).
    destruct (answered m); simpl.
    + intros Hnum. inversion Hnum as [|? ? [z Hz] Hrest]; subst.
      rewrite Hz. destruct (truthy_int last && _); now apply IH.
    + apply IH.
Qed.

Lemma diff_loop_raises (last : option Z) (msgs : list message) (m : message)
  (e : exn) :
  In m msgs -> answered m = true -> int (m_id m) = Raise e ->
  forall n acc, exists e',
    diff_loop last msgs n acc = Raise e' /\ (e' = TypeError \/ e' = ValueError).
Proof.
  intros Hin Ha Hm. induction msgs as [|a r IH]; [destruct Hin|].
  intros n acc. simpl.
  change (truthy_bool (m_answered a)) with (answered a).
  destruct (answered a) eqn:E; simpl.
  - destruct (int (m_id a)) as [z|e1] eqn:Ea.
    + destruct Hin as [->|Hin]; [congruence|].
      destruct (truthy_int last && _); now apply IH.
    + exists e1. split; [reflexivity|]. now apply int_raises with (x := m_id a).
  - destruct Hin as [->|Hin]; [congruence|].
    now apply IH.
Qed.

(** *** One poll cycle *)

Arguments diff_loop : simpl never.

Section Cycle.
Context {U : Urllib}.

Lemma notify_each_messages (w : world) (b : bot) (l : list message) :
  forall k, map n_message (notify_each w b k l) = l.
Proof.
  induction l as [|m r IH]; intros k; simpl; [reflexivity|].
  now rewrite IH.
Qed.

Lemma notify_each_later (w1 w2 : world) (b : bot) (l : list message) :
  (forall k, w1 (S k) = w2 (S k)) ->
  forall k, notify_each w1 b (S k) l = notify_each w2 b (S k) l.
Proof.
  intros Hw. induction l as [|m r IH]; intros k; simpl; [reflexivity|].
  now rewrite Hw, IH.
Qed.

Lemma notify_each_same_web (w1 w2 : world) (b : bot) (l : list message) :
  (forall k, web (w1 k) = web (w2 k)) ->
  forall k, map n_text (notify_each w1 b k l) = map n_text (notify_each w2 b k l).
Proof.
  intros Hw. induction l as [|m r IH]; intros k; simpl; [reflexivity|].
  unfold _send_message_notification. simpl.
  now rewrite Hw, IH.
Qed.

(** The [try] block on a listing whose answered records all have numeric
    identifiers. *)
Lemma check_try_completes (w : world) (b : bot) (msgs : list message) :
  listing w b = Some msgs -> msgs <> [] ->
  Forall numeric (filter answered msgs) ->
  check_try w b =
  (notify_each w b 1 (rev (filter (fresh (last_message_id b)) msgs)),
   Ok (_save_last_message_state (set_last_message_id b (observed msgs))
                                (observed msgs))).
Proof.
  unfold listing, check_try. intros -> Hne Hnum.
  destruct msgs as [|m r]; [congruence|].
  rewrite (diff_loop_completes _ _ 0 [] Hnum). reflexivity.
Qed.

(** The whole cycle on such a listing, for a running bot. *)
Lemma check_completes (w : world) (b : bot) (msgs : list message) :
  message_checker_running b = true ->
  listing w b = Some msgs -> msgs <> [] ->
  Forall numeric (filter answered msgs) ->
  check_for_new_messages w b =
  (_save_last_message_state (set_last_message_id b (observed msgs))
                            (observed msgs),
   notify_each w b 1 (rev (filter (fresh (last_message_id b)) msgs))).
Proof.
  intros Run L Hne Hnum. unfold check_for_new_messages. rewrite Run. simpl.
  now rewrite (check_try_completes _ _ L Hne Hnum).
Qed.

(** What a cycle that sent something looked like. *)
Lemma check_sent (w : world) (b : bot) (d : delivery) :
  In d (snd (check_for_new_messages w b)) ->
  exists msgs,
    listing w b = Some msgs /\ msgs <> [] /\
    Forall numeric (filter answered msgs) /\
    message_checker_running b = true /\
    In (n_message d) (filter (fresh (last_message_id b)) msgs).
Proof.
  unfold check_for_new_messages.
  destruct (message_checker_running b) eqn:Run; simpl; [|tauto].
  unfold check_try. destruct (value _ _) as [[|m r]|] eqn:L; simpl; try tauto.
  destruct (diff_loop _ _ _ _) as [[n new]|e] eqn:E; simpl; [|tauto].
  destruct (diff_loop_ok _ _ _ _ E) as (_ & -> & Hnum). simpl in *.
  intros Hd. exists (m :: r). repeat split; try assumption; [discriminate|].
  apply (in_map n_message) in Hd. rewrite notify_each_messages in Hd.
  now apply in_rev.
Qed.

(** The cursor after a cycle: as before, or the listing's value, which
    reaches the disk as the write allows. *)
Lemma check_cursor (w : world) (b : bot) :
  let b' := fst (check_for_new_messages w b) in
  (last_message_id b' = last_message_id b /\ state_file b' = state_file b) \/
  (exists msgs, listing w b = Some msgs /\ msgs <> [] /\
                Forall numeric (filter answered msgs) /\
                last_message_id b' = Some (observed msgs) /\
                state_file b' = match state_file_write b with
                                | Written => Some (observed msgs)
                                | Refused => state_file b
                                | CutShort => None
                                end).
Proof.
  unfold check_for_new_messages.
  destruct (message_checker_running b); simpl; [|now left].
  unfold check_try, listing.
  destruct (value _ _) as [[|m r]|]; simpl; try now left.
  destruct (diff_loop _ _ _ _) as [[n new]|e] eqn:E; simpl; [|now left].
  destruct (diff_loop_ok _ _ _ _ E) as (-> & _ & Hnum).
  right. exists (m :: r). repeat split; try assumption. discriminate.
Qed.

(** A cycle does not change what a write of the state file comes to. *)
Lemma check_disk (w : world) (b : bot) :
  state_file_write (fst (check_for_new_messages w b)) = state_file_write b.
Proof.
  unfold check_for_new_messages.
  destruct (message_checker_running b); simpl; [|reflexivity].
  unfold check_try.
  destruct (value _ _) as [[|m r]|]; simpl; try reflexivity.
  destruct (diff_loop _ _ _ _) as [[n new]|e]; reflexivity.
Qed.

(** The cycles that are skipped or given up: the bot is not running, the
    session is not valid, the listing is empty, or an answered record has
    an identifier that [int] refuses. *)
Lemma check_leaves_bot (w : world) (b : bot) :
  message_checker_running b = false \/
  listing w b = None \/
  listing w b = Some [] \/
  (exists msgs m, listing w b = Some msgs /\ In m msgs /\
                  answered m = true /\ ~ numeric m) ->
  check_for_new_messages w b = (b, []).
Proof.
  unfold check_for_new_messages, listing.
  intros [Run|[L|[L|(msgs & m & L & Hin & Ha & Hm)]]].
  - now rewrite Run.
  - destruct (message_checker_running b); [|reflexivity].
    unfold check_try. now rewrite L.
  - destruct (message_checker_running b); [|reflexivity].
    unfold check_try. now rewrite L.
  - destruct (message_checker_running b); [|reflexivity]. simpl.
    unfold check_try. rewrite L.
    destruct msgs as [|a r]; [destruct Hin|].
    destruct (int (m_id m)) as [z|e] eqn:Ez; [exfalso; apply Hm; now exists z|].
    destruct (diff_loop_raises (last_message_id b) (a :: r) m Hin Ha Ez 0 [])
      as (e' & -> & _).
    reflexivity.
Qed.

End Cycle.

(** Every cycle is of one of the two kinds. *)
Lemma check_skipped_or_completes {U : Urllib} (w : world) (b : bot) :
  check_for_new_messages w b = (b, []) \/
  exists msgs,
    message_checker_running b = true /\ listing w b = Some msgs /\
    msgs <> [] /\ Forall numeric (filter answered msgs).
Proof.
  unfold check_for_new_messages, listing.
  destruct (message_checker_running b); simpl; [|now left].
  unfold check_try.
  destruct (value _ _) as [[|m r]|]; simpl; try now left.
  destruct (diff_loop _ _ _ _) as [[n new]|e] eqn:E; simpl; [|now left].
  destruct (diff_loop_ok _ _ _ _ E) as (_ & _ & Hnum).
  right. exists (m :: r). repeat split; try assumption. discriminate.
Qed.

(** *** The probe, and the listing's part in a cycle *)

(** C8.  The liveness probe sends exactly one GET of the protected page
    [/en/safe] with redirects not followed, and it answers "stale" exactly
    when that request fails or its response has status 303; every other
    status counts as valid. *)
Theorem probe_classification (c : client) (net : network) :
  let probe := GET (base_url c ++ "/en/safe") false in
  sent (_is_session_valid c) net = [probe] /\
  (value (_is_session_valid c) net = false <->
   net probe = NetworkError \/
   exists r, net probe = Response r /\ status_code r = 303).
Proof.
  unfold _is_session_valid, sent, value, Http.bind, call, Http.ret. simpl.
  destruct (net (GET (base_url c ++ "/en/safe") false)) as [|r] eqn:E; simpl.
  - split; [reflexivity|]. split; auto.
  - split; [reflexivity|]. split.
    + intros H. right. exists r. split; [reflexivity|].
      apply negb_false_iff in H. now apply Z.eqb_eq.
    + intros [H|[r' [H H303]]]; [discriminate|].
      injection H as <-. apply negb_false_iff. now apply Z.eqb_eq.
Qed.

(** C10.  When some answered record of the listing has a missing or
    non-numeric identifier, the [try] block of the cycle raises [TypeError]
    or [ValueError] from the loop over the listing, having sent nothing,
    and the cycle ends with no notification and with the bot, cursor in
    memory and on disk included, exactly as it was. *)
Theorem unparsable_identifier_aborts_cycle {U : Urllib} (w : world) (b : bot)
  (msgs : list message) (m : message) (e : exn) :
  listing w b = Some msgs ->
  In m msgs -> answered m = true -> int (m_id m) = Raise e ->
  (exists e', check_try w b = ([], Raise e') /\
              (e' = TypeError \/ e' = ValueError)) /\
  check_for_new_messages w b = (b, []).
Proof.
  intros L Hin Ha Hm.
  assert (Htry : exists e', check_try w b = ([], Raise e') /\
                            (e' = TypeError \/ e' = ValueError)).
  { unfold check_try. unfold listing in L. rewrite L.
    destruct msgs as [|a r]; [destruct Hin|].
    destruct (diff_loop_raises (last_message_id b) (a :: r) m Hin Ha Hm 0 [])
      as (e' & -> & He').
    exists e'. auto. }
  split; [exact Htry|].
  destruct Htry as (e' & Htry & _).
  unfold check_for_new_messages. rewrite Htry.
  now destruct (message_checker_running b).
Qed.

(** C7.  Unanswered records take no part in a cycle: two listings with the
    same answered records (and both empty or both not) lead to the same
    notifications and the same bot, and every record a cycle notifies is
    answered.  So an unanswered record is neither notified nor counted in
    the value the cursor is set to, whatever its identifier. *)
Theorem unanswered_excluded {U : Urllib} (w1 w2 : world) (b : bot)
  (msgs1 msgs2 : list message) :
  listing w1 b = Some msgs1 -> listing w2 b = Some msgs2 ->
  filter answered msgs1 = filter answered msgs2 ->
  (msgs1 = [] <-> msgs2 = []) ->
  (forall k, w1 (S k) = w2 (S k)) ->
  check_for_new_messages w1 b = check_for_new_messages w2 b /\
  (forall d, In d (snd (check_for_new_messages w1 b)) ->
             m_answered (n_message d) = Some true) /\
  observed msgs1 = observed (filter answered msgs1).
Proof.
  intros L1 L2 Hsame Hempty Hlater. split; [|split].
  - unfold check_for_new_messages.
    destruct (message_checker_running b); [|reflexivity].
    assert (Htry : check_try w1 b = check_try w2 b); [|now rewrite Htry].
    unfold check_try. unfold listing in L1, L2. rewrite L1, L2.
    destruct msgs1 as [|m1 r1], msgs2 as [|m2 r2]; try reflexivity.
    + destruct Hempty as [H _]. discriminate (H eq_refl).
    + destruct Hempty as [_ H]. discriminate (H eq_refl).
    + rewrite (diff_loop_answered_only _ (m1 :: r1)),
              (diff_loop_answered_only _ (m2 :: r2)), Hsame.
      destruct (diff_loop _ _ _ _) as [[n new]|e]; [|reflexivity].
      now rewrite (notify_each_later w1 w2 b _ Hlater).
  - intros d Hd. destruct (check_sent _ _ _ Hd) as (msgs & _ & _ & _ & _ & Hin).
    apply filter_In in Hin. destruct Hin as [_ Hf].
    apply fresh_answered in Hf. unfold answered, truthy_bool in Hf.
    destruct (m_answered (n_message d)) as [[|]|]; congruence.
  - unfold observed, answered_ids.
    now rewrite filter_twice.
Qed.

Lemma unparsable_identifier_aborts_cycle_witness :
  let w := during [entry "14" "true"; entry_without_id "true"] always in
  let b := bot_at (Some 9) in
  let m := @message_of_link join_on_host host (entry_without_id "true") in
  (listing (U := join_on_host) w b =
     Some (listed [entry "14" "true"; entry_without_id "true"]) /\
   In m (listed [entry "14" "true"; entry_without_id "true"]) /\
   answered m = true /\ int (m_id m) = Raise TypeError) /\
  ((exists e', check_try (U := join_on_host) w b = ([], Raise e') /\
               (e' = TypeError \/ e' = ValueError)) /\
   check_for_new_messages (U := join_on_host) w b = (b, [])).
Proof.
  intros w b m.
  assert (H1 : listing (U := join_on_host) w b =
               Some (listed [entry "14" "true"; entry_without_id "true"]))
    by reflexivity.
  assert (H2 : In m (listed [entry "14" "true"; entry_without_id "true"]))
    by (vm_compute; auto).
  assert (H3 : answered m = true) by reflexivity.
  assert (H4 : int (m_id m) = Raise TypeError) by reflexivity.
  split; [auto|].
  exact (@unparsable_identifier_aborts_cycle join_on_host w b _ m TypeError
           H1 H2 H3 H4).
Defined.

Lemma unanswered_excluded_witness :
  let later := during [] always in
  let w1 := followed_by (during [entry "20" "false"; entry "9" "true"] always O)
                        later in
  let w2 := followed_by (during [entry "9" "true"] always O) later in
  let b := bot_at (Some 9) in
  check_for_new_messages (U := join_on_host) w1 b =
  check_for_new_messages (U := join_on_host) w2 b /\
  (forall d, In d (snd (check_for_new_messages (U := join_on_host) w1 b)) ->
             m_answered (n_message d) = Some true) /\
  observed (listed [entry "20" "false"; entry "9" "true"]) =
  observed (filter answered (listed [entry "20" "false"; entry "9" "true"])).
Proof.
  intros later w1 w2 b.
  apply (@unanswered_excluded join_on_host w1 w2 b
           (listed [entry "20" "false"; entry "9" "true"])
           (listed [entry "9" "true"])).
  - reflexivity.
  - reflexivity.
  - reflexivity.
  - split; discriminate.
  - reflexivity.
Defined.

(** *** Runs of cycles *)

Lemma cursor_le_refl (a : option Z) : cursor_le a a.
Proof. destruct a; simpl; [lia|exact I]. Qed.

Lemma cursor_le_trans (a b c : option Z) :
  cursor_le a b -> cursor_le b c -> cursor_le a c.
Proof. destruct a, b, c; simpl; try tauto; lia. Qed.

Lemma poll_step {U : Urllib} (w : world) (rest : list world) (b : bot) :
  fst (poll (w :: rest) b) = fst (poll rest (fst (check_for_new_messages w b))).
Proof.
  simpl. destruct (check_for_new_messages w b) as [b1 sent].
  simpl. now destruct (poll rest b1).
Qed.

Lemma poll_disk {U : Urllib} (ws : list world) :
  forall b, state_file_write (fst (poll ws b)) = state_file_write b.
Proof.
  induction ws as [|w rest IH]; intros b; [reflexivity|].
  now rewrite poll_step, IH, check_disk.
Qed.

(** C1, as the code has it.  A cycle that completes sets the cursor in
    memory to the greatest identifier among the answered records of its
    listing (or 0), whatever the cursor was; no comparison with the
    current cursor is made.  It writes that value to the state file, which
    then holds it when the write goes through, stays as it was when the
    file cannot be opened, and no longer reads back when the write breaks
    off.  A cycle that is skipped or given up (the bot is not running, the
    session is not valid, the listing is empty, an answered record has an
    identifier that is no number) leaves the bot as it was, cursor in
    memory and on disk included; every cycle is of one of these two kinds.
    Along a run of cycles the cursor is
    therefore non-decreasing provided each listing's value is not below the
    cursor of the moment; memory and disk stay in step on a disk that takes
    the writes, and the file keeps its content on a disk that refuses
    them. *)
Theorem cursor_follows_listing {U : Urllib} (ws : list world) (b : bot) :
  keeps_up ws b ->
  cursor_le (last_message_id b) (last_message_id (fst (poll ws b))) /\
  (state_file_write b = Written -> state_file b = last_message_id b ->
   state_file (fst (poll ws b)) = last_message_id (fst (poll ws b))) /\
  (state_file_write b = Refused ->
   state_file (fst (poll ws b)) = state_file b) /\
  (forall w msgs,
     message_checker_running b = true ->
     listing w b = Some msgs -> msgs <> [] ->
     Forall numeric (filter answered msgs) ->
     last_message_id (fst (check_for_new_messages w b)) = Some (observed msgs) /\
     state_file (fst (check_for_new_messages w b)) =
       match state_file_write b with
       | Written => Some (observed msgs)
       | Refused => state_file b
       | CutShort => None
       end) /\
  (forall w,
     message_checker_running b = false \/
     listing w b = None \/
     listing w b = Some [] \/
     (exists msgs m, listing w b = Some msgs /\ In m msgs /\
                     answered m = true /\ ~ numeric m) ->
     check_for_new_messages w b = (b, [])) /\
  (forall w,
     check_for_new_messages w b = (b, []) \/
     exists msgs,
       message_checker_running b = true /\ listing w b = Some msgs /\
       msgs <> [] /\ Forall numeric (filter answered msgs)).
Proof.
  intros Hup. split; [|split; [|split; [|split; [|split]]]].
  - revert b Hup. induction ws as [|w rest IH]; intros b Hup.
    + apply cursor_le_refl.
    + rewrite poll_step. destruct Hup as [Hnow Hlater].
      apply cursor_le_trans with
        (b := last_message_id (fst (check_for_new_messages w b)));
        [|now apply IH].
      destruct (check_cursor w b) as [[-> _]|(msgs & L & Hne & Hnum & -> & _)].
      * apply cursor_le_refl.
      * now apply Hnow.
  - clear Hup. revert b. induction ws as [|w rest IH]; intros b Hdisk Hsync.
    + exact Hsync.
    + rewrite poll_step. apply IH; [now rewrite check_disk|].
      destruct (check_cursor w b) as [[-> ->]|(msgs & _ & _ & _ & -> & ->)];
        [exact Hsync|now rewrite Hdisk].
  - clear Hup. revert b. induction ws as [|w rest IH]; intros b Hdisk.
    + reflexivity.
    + rewrite poll_step, IH by now rewrite check_disk.
      destruct (check_cursor w b) as [[_ ->]|(msgs & _ & _ & _ & _ & ->)];
        [reflexivity|now rewrite Hdisk].
  - intros w msgs Run L Hne Hnum.
    rewrite (check_completes _ _ Run L Hne Hnum). simpl. auto.
  - intros w. apply check_leaves_bot.
  - intros w. apply check_skipped_or_completes.
Qed.

Lemma cursor_follows_listing_witness :
  let ws := [during [entry "14" "true"; entry "11" "true"] always;
             during [] always;
             during [entry "15" "true"; entry "14" "true"] never] in
  let b := bot_at (Some 9) in
  keeps_up (U := join_on_host) ws b /\
  cursor_le (last_message_id b)
            (last_message_id (fst (poll (U := join_on_host) ws b))) /\
  last_message_id (fst (poll (U := join_on_host) ws b)) = Some 15 /\
  state_file (fst (poll (U := join_on_host) ws b)) = Some 15 /\
  state_file (fst (poll (U := join_on_host) ws (on_disk Refused b))) = Some 9.
Proof.
  intros ws b.
  assert (Hup : keeps_up (U := join_on_host) ws b).
  { repeat split; intros msgs L Hne _; vm_compute in L;
      injection L as <-; try (now destruct Hne); vm_compute; discriminate. }
  split; [exact Hup|]. split; [|split; [|split]].
  - exact (proj1 (@cursor_follows_listing join_on_host ws b Hup)).
  - reflexivity.
  - reflexivity.
  - reflexivity.
Defined.

(** C1, as stated, fails: with the cursor at 14 a listing whose only
    answered record is 11 moves the cursor back to 11, in memory and on
    disk, and a listing with no answered record moves it to 0.  And on a
    disk that refuses the write, a cycle moves the cursor in memory from 9
    to 14 while the file still holds 9. *)
Lemma cursor_moves_backward :
  last_message_id
    (fst (check_for_new_messages (U := join_on_host)
            (during [entry "11" "true"] always) (bot_at (Some 14)))) = Some 11 /\
  state_file
    (fst (check_for_new_messages (U := join_on_host)
            (during [entry "11" "true"] always) (bot_at (Some 14)))) = Some 11 /\
  last_message_id
    (fst (check_for_new_messages (U := join_on_host)
            (during [entry "20" "false"] always) (bot_at (Some 14)))) = Some 0 /\
  ~ (forall (w : world) (b : bot),
       cursor_le (last_message_id b)
                 (last_message_id
                    (fst (check_for_new_messages (U := join_on_host) w b)))) /\
  last_message_id
    (fst (check_for_new_messages (U := join_on_host)
            (during [entry "14" "true"] always)
            (on_disk Refused (bot_at (Some 9))))) = Some 14 /\
  state_file
    (fst (check_for_new_messages (U := join_on_host)
            (during [entry "14" "true"] always)
            (on_disk Refused (bot_at (Some 9))))) = Some 9.
Proof.
  split; [reflexivity|]. split; [reflexivity|]. split; [reflexivity|].
  split; [|split; reflexivity].
  intros H.
  specialize (H (during [entry "11" "true"] always) (bot_at (Some 14))).
  vm_compute in H. now apply H.
Qed.

(** C3, on the code.  The loop that sends the notifications runs over
    [reversed(new_messages)] under the comment "Send oldest first", and
    nothing is sorted: the records go out in the reverse of the order in
    which the listing presents them.  With the cursor at 9 and a listing
    that presents the answered records 9, 11, 14 in that order, the cycle
    notifies 14 first and 11 second (a listing that presents them as 14,
    11, 9 gives 11 first and 14 second).  And with the cursor at 0 the
    test [self.last_message_id and ...] takes the cursor for absent: an
    answered record 14 is not notified at all. *)
Theorem ascending_listing_notified_newest_first :
  map identifier
    (map n_message
       (snd (check_for_new_messages (U := join_on_host)
               (during [entry "9" "true"; entry "11" "true"; entry "14" "true"]
                       always)
               (bot_at (Some 9))))) = [14; 11] /\
  ~ StronglySorted Z.lt
      (map identifier
         (map n_message
            (snd (check_for_new_messages (U := join_on_host)
                    (during [entry "9" "true"; entry "11" "true";
                             entry "14" "true"] always)
                    (bot_at (Some 9)))))) /\
  map identifier
    (map n_message
       (snd (check_for_new_messages (U := join_on_host)
               (during [entry "14" "true"; entry "11" "true"; entry "9" "true"]
                       always)
               (bot_at (Some 9))))) = [11; 14] /\
  snd (check_for_new_messages (U := join_on_host)
         (during [entry "14" "true"] always) (bot_at (Some 0))) = [].
Proof.
  split; [reflexivity|]. split; [|split; reflexivity].
  intros H. vm_compute in H.
  inversion H as [|? ? _ Hall]; subst.
  inversion Hall as [|? ? Hlt _]; subst.
  discriminate Hlt.
Qed.



(** *** Notifications and the cursor *)

Section Deliveries.
Context {U : Urllib}.

Lemma sent_above_cursor (w : world) (b : bot) (d : delivery) :
  In d (snd (check_for_new_messages w b)) ->
  exists c, last_message_id b = Some c /\ numeric (n_message d) /\
            c < identifier (n_message d).
Proof.
  intros Hd. destruct (check_sent _ _ _ Hd) as (msgs & _ & _ & Hnum & _ & Hin).
  apply filter_In in Hin. destruct Hin as [Hin Hf].
  pose proof (fresh_answered _ _ Hf) as Ha.
  unfold fresh in Hf. destruct (last_message_id b) as [c|]; [|discriminate].
  exists c. split; [reflexivity|]. split.
  - rewrite Forall_forall in Hnum. apply Hnum. apply filter_In. auto.
  - apply andb_prop in Hf. destruct Hf as [_ Hf]. unfold above in Hf.
    apply andb_prop in Hf. destruct Hf as [_ Hf]. lia.
Qed.

Lemma sent_below_new_cursor (w : world) (b : bot) (d : delivery) :
  In d (snd (check_for_new_messages w b)) ->
  exists c', last_message_id (fst (check_for_new_messages w b)) = Some c' /\
             identifier (n_message d) <= c'.
Proof.
  intros Hd.
  destruct (check_sent _ _ _ Hd) as (msgs & L & Hne & Hnum & Run & Hin).
  exists (observed msgs). split.
  - now rewrite (check_completes _ _ Run L Hne Hnum).
  - apply fold_max_upper. unfold answered_ids. apply in_map.
    apply filter_In in Hin. destruct Hin as [Hin Hf].
    apply filter_In. split; [assumption|]. now apply fresh_answered in Hf.
Qed.

Lemma check_same_web (w w' : world) (b : bot) :
  (forall k, web (w' k) = web (w k)) ->
  fst (check_for_new_messages w' b) = fst (check_for_new_messages w b) /\
  map n_message (snd (check_for_new_messages w' b)) =
    map n_message (snd (check_for_new_messages w b)) /\
  map n_text (snd (check_for_new_messages w' b)) =
    map n_text (snd (check_for_new_messages w b)).
Proof.
  intros Hweb. unfold check_for_new_messages.
  destruct (message_checker_running b); simpl; [|auto].
  unfold check_try. rewrite Hweb.
  destruct (value _ _) as [[|m r]|]; simpl; auto.
  destruct (diff_loop _ _ _ _) as [[n new]|e]; simpl; auto.
  rewrite !notify_each_messages.
  rewrite (notify_each_same_web w' w b _ Hweb). auto.
Qed.

End Deliveries.

Lemma poll_sent {U : Urllib} (w : world) (rest : list world) (b : bot) :
  snd (poll (w :: rest) b) =
  snd (check_for_new_messages w b) ::
  snd (poll rest (fst (check_for_new_messages w b))).
Proof.
  simpl. destruct (check_for_new_messages w b) as [b1 sent].
  simpl. now destruct (poll rest b1).
Qed.

(** In a run that keeps up with the cursor, every notification is beyond
    the cursor the run started with. *)
Lemma run_sent_above_cursor {U : Urllib} (ws : list world) :
  forall b c,
    keeps_up ws b -> last_message_id b = Some c ->
    forall sent d, In sent (snd (poll ws b)) -> In d sent ->
                   c < identifier (n_message d).
Proof.
  induction ws as [|w rest IH]; intros b c Hup Hc sent d; [intros []|].
  rewrite poll_sent. destruct Hup as [Hnow Hlater]. intros [<-|Hin] Hd.
  - destruct (sent_above_cursor _ _ _ Hd) as (c0 & Hc0 & _ & Hlt). congruence.
  - destruct (check_cursor w b) as [[Hsame _]|(msgs & L & Hne & Hnum & Hnew & _)].
    + rewrite Hc in Hsame. exact (IH _ c Hlater Hsame sent d Hin Hd).
    + specialize (Hnow msgs L Hne Hnum). rewrite Hc in Hnow. simpl in Hnow.
      pose proof (IH _ (observed msgs) Hlater Hnew sent d Hin Hd). lia.
Qed.

(** C5, as the code has it.  Whether the chat takes a notification or not
    changes nothing else in the cycle: against the same portal, any other
    behaviour of the chat leads to the same records being notified with the
    same texts and to the same bot; so a failed delivery neither stops the
    later ones nor holds the cursor back.  After the cycle the cursor is at
    or beyond every record that was notified, the failed ones included;
    the next cycle only notifies records beyond that cursor, and so does
    every cycle of a run that keeps up with the cursor.  (Without that, a
    later cycle may notify the record again once the cursor has fallen
    below it.) *)
Theorem failed_delivery_changes_nothing {U : Urllib} (w w' : world) (b : bot) :
  (forall k, web (w' k) = web (w k)) ->
  fst (check_for_new_messages w' b) = fst (check_for_new_messages w b) /\
  map n_message (snd (check_for_new_messages w' b)) =
    map n_message (snd (check_for_new_messages w b)) /\
  map n_text (snd (check_for_new_messages w' b)) =
    map n_text (snd (check_for_new_messages w b)) /\
  (forall d, In d (snd (check_for_new_messages w b)) ->
     exists c',
       last_message_id (fst (check_for_new_messages w b)) = Some c' /\
       identifier (n_message d) <= c' /\
       (forall w2 d2,
          In d2 (snd (check_for_new_messages w2 (fst (check_for_new_messages w b)))) ->
          c' < identifier (n_message d2)) /\
       (forall ws sent d2,
          keeps_up ws (fst (check_for_new_messages w b)) ->
          In sent (snd (poll ws (fst (check_for_new_messages w b)))) ->
          In d2 sent -> c' < identifier (n_message d2))).
Proof.
  intros Hweb.
  destruct (check_same_web w w' b Hweb) as (H1 & H2 & H3).
  repeat split; try assumption.
  intros d Hd. destruct (sent_below_new_cursor _ _ _ Hd) as (c' & Hc' & Hle).
  exists c'. repeat split; try assumption.
  - intros w2 d2 Hd2.
    destruct (sent_above_cursor _ _ _ Hd2) as (c & Hc & _ & Hlt).
    congruence.
  - intros ws sent d2 Hup Hsent Hd2.
    exact (run_sent_above_cursor ws _ Hup Hc' sent d2 Hsent Hd2).
Qed.

Lemma failed_delivery_changes_nothing_witness :
  let w := during [entry "14" "true"; entry "11" "true"; entry "9" "true"]
                  (fun k => negb (Nat.eqb k 1)) in
  let w' := during [entry "14" "true"; entry "11" "true"; entry "9" "true"]
                   always in
  let b := bot_at (Some 9) in
  outcomes [snd (check_for_new_messages (U := join_on_host) w b)] =
    [[(Some "11", false); (Some "14", true)]] /\
  fst (check_for_new_messages (U := join_on_host) w' b) =
    fst (check_for_new_messages (U := join_on_host) w b) /\
  last_message_id (fst (check_for_new_messages (U := join_on_host) w b)) =
    Some 14.
Proof.
  intros w w' b.
  assert (Hweb : forall k, web (w' k) = web (w k)) by reflexivity.
  split; [reflexivity|]. split; [|reflexivity].
  exact (proj1 (@failed_delivery_changes_nothing join_on_host w w' b Hweb)).
Defined.

(** C5, as stated, fails in its last part: the delivery of record 14 fails
    in the first cycle and the cursor moves to 14; the second cycle sees a
    listing with record 11 only and moves the cursor back to 11; the third
    cycle sees record 14 again and notifies it a second time. *)
Lemma failed_record_notified_again :
  outcomes
    (snd (poll (U := join_on_host)
            [during [entry "14" "true"] never;
             during [entry "11" "true"] always;
             during [entry "14" "true"; entry "11" "true"] always]
            (bot_at (Some 9)))) =
  [[(Some "14", false)]; []; [(Some "14", true)]].
Proof. reflexivity. Qed.

(** *** Asking a question *)

(** C2, as the code has it.  The checks are made by the callers of
    [ask_question], not by [ask_question]: the /ask command answers that
    the question is too long and contacts nobody when the question has more
    than 600 characters; choice 4 of the menu prints one line and contacts
    nobody when the question has more than 600 characters or when the
    attachment path names no file.  [ask_question] itself treats a path
    that names no file like no path at all. *)
Theorem question_checked_by_callers (fs : filesystem) (net : network) :
  (forall b chat_id args,
     (600 < String.length (join " " args))%nat ->
     sent (ask_command fs b chat_id args) net = [] /\
     (chat_id = authorized_chat_id b ->
      value (ask_command fs b chat_id args) net = [QuestionIsTooLong])) /\
  (forall c question_line draft_line attachment_line,
     (600 < String.length (strip question_line))%nat \/
     (strip attachment_line <> "" /\
      exists_ fs (strip attachment_line) = false) ->
     sent (ExampleUsage.ask_a_question fs c question_line draft_line
                                       attachment_line) net = [] /\
     exists line,
       value (ExampleUsage.ask_a_question fs c question_line draft_line
                                          attachment_line) net = [line] /\
       (line = ExampleUsage.QuestionIsRequired \/
        line = ExampleUsage.QuestionIsTooLong \/
        line = ExampleUsage.AttachmentFileNotFound)) /\
  (forall c question draft path,
     exists_ fs path = false ->
     ask_question fs c question draft (Some path) net =
     ask_question fs c question draft None net).
Proof.
  split; [|split].
  - intros b chat_id args Hlong. unfold ask_command, sent, value.
    apply Nat.ltb_lt in Hlong.
    destruct (String.eqb chat_id (authorized_chat_id b)) eqn:E; simpl.
    + destruct args as [|a r]; [simpl in Hlong; discriminate|].
      rewrite Hlong. simpl. auto.
    + split; [reflexivity|]. intros ->. now rewrite String.eqb_refl in E.
  - intros c q d a H. unfold ExampleUsage.ask_a_question, sent, value.
    destruct (String.eqb (strip q) "") eqn:Eq; simpl; [eauto 6|].
    destruct (600 <? String.length (strip q))%nat eqn:El; simpl; [eauto 6|].
    destruct H as [H|[Ha He]]; [apply Nat.ltb_lt in H; congruence|].
    apply String.eqb_neq in Ha. rewrite Ha, He. simpl. eauto 6.
  - intros c q d path He. unfold ask_question, open_attachment.
    rewrite He, andb_false_r. reflexivity.
Qed.

Lemma question_checked_by_callers_witness :
  sent (ask_command empty_disk (bot_at None) "42"
                    [text_of_length 300; text_of_length 300])
       consult_portal = [] /\
  value (ask_command empty_disk (bot_at None) "42"
                     [text_of_length 300; text_of_length 300])
        consult_portal = [QuestionIsTooLong] /\
  sent (ExampleUsage.ask_a_question empty_disk logged_in
          "Is it ok?" "n" "/tmp/missing.pdf") consult_portal = [].
Proof.
  pose proof (@question_checked_by_callers empty_disk consult_portal) as (Hbot & Hmenu & _).
  assert (Hlong : (600 < String.length
                           (join " " [text_of_length 300; text_of_length 300]))%nat)
    by (vm_compute; repeat constructor).
  destruct (Hbot (bot_at None) "42" _ Hlong) as [H1 H2].
  split; [exact H1|]. split; [exact (H2 eq_refl)|].
  refine (proj1 (Hmenu logged_in "Is it ok?" "n" "/tmp/missing.pdf" _)).
  right. split; [discriminate|reflexivity].
Defined.

(** C2, as stated, fails: [ask_question] sends a question of 601
    characters to the portal and reports success, and with an attachment
    path that names no file it sends the question without attachment. *)
Lemma ask_question_checks_nothing :
  String.length (text_of_length 601) = 601%nat /\
  ask_question empty_disk logged_in (text_of_length 601)
               false None consult_portal =
  (true,
   [GET (host ++ "/en/consult") true;
    POST (host ++ "/en/consult")
         [("csrf", "t0k3n"); ("question", text_of_length 601); ("draft", "")]
         None true]) /\
  exists_ empty_disk "/tmp/missing.pdf" = false /\
  ask_question empty_disk logged_in "Is it ok?"
               false (Some "/tmp/missing.pdf") consult_portal =
  (true,
   [GET (host ++ "/en/consult") true;
    POST (host ++ "/en/consult")
         [("csrf", "t0k3n"); ("question", "Is it ok?"); ("draft", "")]
         None true]).
Proof. repeat split; vm_compute; reflexivity. Qed.

(** *** Loading the session *)

(** What [_load_session] does handle: a file that is not JSON leaves the
    method normally, with an empty jar and the authentication flag as it
    was; no request is sent. *)
Lemma load_session_not_json {L : CookieLib} (c : client) (net : network) :
  _load_session c NotJson net =
  (({| base_url := base_url c; cookies := [];
       is_authenticated := is_authenticated c |}, None), []).
Proof. reflexivity. Qed.

(** C6, on the code.  A session file that holds JSON of another shape is
    not handled.  When the document is a list, [session_data.get] raises
    [AttributeError], which the [except] clause does not name: the
    exception leaves [_load_session].  When a cookie entry lacks its value,
    [TypeError] leaves the method likewise, and the cookies restored before
    it stay in the jar. *)
Theorem load_session_lets_exceptions_out {L : CookieLib} (c : client)
  (net : network) :
  _load_session c (Document (JList [])) net = ((c, Some AttributeError), []) /\
  (cookie_refused [("name", JStr "sid"); ("value", JStr "abc")] = None ->
   _load_session (new_client (base_url c))
     (Document
        (JDict [("cookies",
                 JList [JDict [("name", JStr "sid"); ("value", JStr "abc")];
                        JDict [("name", JStr "lang")]])]))
     net =
   (({| base_url := base_url c;
        cookies := [Stored [("name", JStr "sid"); ("value", JStr "abc")]];
        is_authenticated := false |}, Some TypeError), [])).
Proof.
  split; [reflexivity|].
  intros Hstore. unfold _load_session, load_session_try, Http.bind. simpl.
  unfold Http.ret. simpl. rewrite Hstore. reflexivity.
Qed.

(** *** Reading a detail page *)




(* ===================================================================== *)
(** ** Further properties of the two modules *)
(* ===================================================================== *)

Import Authentication Handlers FormNotions.

(** *** Dictionaries and traces *)

Lemma dict_get_set_same (V : Type) (k : string) (v : V) (d : dict V) :
  dict_get k (dict_set k v d) = Some v.
Proof.
  induction d as [|[k' v'] r IH]; simpl.
  - now rewrite String.eqb_refl.
  - destruct (String.eqb k' k) eqn:E; simpl.
    + now rewrite String.eqb_refl.
    + now rewrite E.
Qed.

Lemma dict_get_set_other (V : Type) (k k0 : string) (v : V) (d : dict V) :
  k <> k0 -> dict_get k0 (dict_set k v d) = dict_get k0 d.
Proof.
  intros Hne. induction d as [|[k' v'] r IH]; simpl.
  - apply String.eqb_neq in Hne. now rewrite Hne.
  - destruct (String.eqb k' k) eqn:E; simpl.
    + apply String.eqb_eq in E. subst k'.
      apply String.eqb_neq in Hne. now rewrite Hne.
    + destruct (String.eqb k' k0); [reflexivity|exact IH].
Qed.

Lemma sent_bind (A B : Type) (m : NetM A) (k : A -> NetM B) (net : network) :
  sent (Http.bind m k) net = (sent m net ++ sent (k (value m net)) net)%list.
Proof.
  unfold sent, value, Http.bind. destruct (m net) as [a t1]. simpl.
  now destruct (k a net).
Qed.

Lemma value_bind (A B : Type) (m : NetM A) (k : A -> NetM B) (net : network) :
  value (Http.bind m k) net = value (k (value m net)) net.
Proof.
  unfold value, Http.bind. destruct (m net) as [a t1]. simpl.
  now destruct (k a net).
Qed.

(** *** Hidden fields *)

(** X1.  [_get_form_data] maps a non-empty name to the value of the last
    hidden input of the page that carries it (the empty string when that
    input has no value), and to nothing when no hidden input carries it;
    the empty name is never a key. *)
Theorem form_data_last_input_wins (html : node) (k : string) :
  (k <> "" ->
   dict_get k (_get_form_data html) =
   option_map submitted_value
     (List.find (is_named k) (rev (hidden_inputs html)))) /\
  dict_get "" (_get_form_data html) = None.
Proof.
  unfold _get_form_data. fold (hidden_inputs html).
  set (step := fun (form_data : dict string) (input_field : node) => _).
  assert (Hempty : forall l, dict_get "" (fold_left step l []) = None).
  { intros l. induction l as [|x l IH] using rev_ind; [reflexivity|].
    rewrite fold_left_app. simpl. unfold step at 1.
    destruct (get "name" x) as [name|]; [|exact IH].
    destruct (String.eqb name "") eqn:E; [exact IH|].
    rewrite dict_get_set_other; [exact IH|].
    now apply String.eqb_neq. }
  split; [|apply Hempty].
  intros Hk. induction (hidden_inputs html) as [|x l IH] using rev_ind;
    [reflexivity|].
  rewrite fold_left_app, rev_app_distr. simpl.
  unfold step at 1, is_named at 1, submitted_value.
  destruct (get "name" x) as [name|]; [|exact IH].
  destruct (String.eqb name k) eqn:E.
  - apply String.eqb_eq in E. subst name.
    apply String.eqb_neq in Hk. rewrite Hk.
    now rewrite dict_get_set_same.
  - destruct (String.eqb name "") eqn:E0; [exact IH|].
    rewrite dict_get_set_other; [exact IH|].
    now apply String.eqb_neq.
Qed.

Lemma form_data_last_input_wins_witness :
  dict_get "csrf"
    (_get_form_data
       (page [Tag "input" [("type", "hidden"); ("name", "csrf"); ("value", "old")] [];
              Tag "input" [("type", "text"); ("name", "csrf"); ("value", "shown")] [];
              Tag "form" [] [Tag "input" [("type", "hidden"); ("name", "csrf")] []]]))
  = Some "".
Proof.
  rewrite (proj1 (form_data_last_input_wins _ "csrf")); [reflexivity|discriminate].
Defined.

(** *** Asking a question: the requests *)

Ltac net_steps := unfold sent, value, Http.bind, call, Http.ret; simpl.

(** The requests of [ask_question], case by case. *)
Lemma ask_question_trace (fs : filesystem) (c : client) (question : string)
  (draft : bool) (path : option string) (net : network) :
  let target := base_url c ++ "/en/consult" in
  (value (ask_question fs c question draft path) net = false /\
   (sent (ask_question fs c question draft path) net = [] \/
    sent (ask_question fs c question draft path) net = [GET target true])) \/
  exists resp1 files,
    net (GET target true) = Response resp1 /\
    raise_for_status resp1 = false /\
    open_attachment fs path = Ok files /\
    sent (ask_question fs c question draft path) net =
      [GET target true;
       POST target
            (dict_update (_get_form_data (soup resp1))
               [("question", question); ("draft", if draft then "on" else "")])
            files true] /\
    (value (ask_question fs c question draft path) net = true ->
     exists resp2,
       net (POST target
              (dict_update (_get_form_data (soup resp1))
                 [("question", question); ("draft", if draft then "on" else "")])
              files true) = Response resp2 /\
       raise_for_status resp2 = false).
Proof.
  unfold ask_question. net_steps.
  destruct (is_authenticated c); simpl; [|left; auto].
  destruct (net (GET (base_url c ++ "/en/consult") true)) as [|resp1] eqn:E1;
    simpl; [left; auto|].
  destruct (raise_for_status resp1) eqn:S1; simpl; [left; auto|].
  destruct (open_attachment fs path) as [files|e] eqn:Eo; simpl; [|left; auto].
  right. exists resp1, files. repeat split; try reflexivity; try assumption.
  - destruct (net (POST _ _ _ _)) as [|resp2]; simpl; [reflexivity|].
    destruct (raise_for_status resp2); simpl; [reflexivity|].
    destruct (contains "question" _ && _); simpl; [reflexivity|].
    destruct (contains "error" _); reflexivity.
  - destruct (net (POST _ _ _ _)) as [|resp2] eqn:E2; simpl; [discriminate|].
    destruct (raise_for_status resp2) eqn:S2; simpl; [discriminate|].
    intros _. now exists resp2.
Qed.

(** X2.  Whatever the page of the consult form holds, a POST of
    [ask_question] goes to [/en/consult] and carries the caller's question
    under [question] and the draft flag under [draft]; every other field
    is the hidden field of the form that was fetched.  The caller's fields
    win over hidden inputs of the same names. *)
Theorem ask_question_fields (fs : filesystem) (c : client) (question : string)
  (draft : bool) (path : option string) (net : network)
  (target : string) (data : dict string) (files : option string)
  (redirects : bool) :
  In (POST target data files redirects)
     (sent (ask_question fs c question draft path) net) ->
  target = base_url c ++ "/en/consult" /\
  dict_get "question" data = Some question /\
  dict_get "draft" data = Some (if draft then "on" else "") /\
  exists resp,
    net (GET target true) = Response resp /\
    forall k, k <> "question" -> k <> "draft" ->
              dict_get k data = dict_get k (_get_form_data (soup resp)).
Proof.
  intros Hin.
  destruct (ask_question_trace fs c question draft path net)
    as [[_ [H|H]]|(resp1 & files' & E1 & _ & _ & H & _)];
    rewrite H in Hin; simpl in Hin.
  - destruct Hin.
  - destruct Hin as [Hin|[]]. discriminate.
  - destruct Hin as [Hin|[Hin|[]]]; [discriminate|].
    injection Hin as <- <- <- <-.
    unfold dict_update. simpl. repeat split.
    + rewrite dict_get_set_other by discriminate. apply dict_get_set_same.
    + apply dict_get_set_same.
    + exists resp1. split; [exact E1|]. intros k Hq Hd.
      rewrite !dict_get_set_other; auto.
Qed.

Lemma ask_question_fields_witness :
  let hostile :=
    fun rq : request =>
      ok "" (page [Tag "input" [("type", "hidden"); ("name", "question");
                                ("value", "planted")] [];
                   Tag "input" [("type", "hidden"); ("name", "csrf");
                                ("value", "t0k3n")] []]) in
  sent (ask_question empty_disk logged_in "Is it ok?" true None) hostile =
    [GET (host ++ "/en/consult") true;
     POST (host ++ "/en/consult")
          [("question", "Is it ok?"); ("csrf", "t0k3n"); ("draft", "on")]
          None true] /\
  dict_get "question"
    [("question", "Is it ok?"); ("csrf", "t0k3n"); ("draft", "on")] =
    Some "Is it ok?".
Proof.
  intros hostile. split; [reflexivity|].
  refine (proj1 (proj2 (@ask_question_fields empty_disk logged_in "Is it ok?"
                          true None hostile (host ++ "/en/consult")
                          [("question", "Is it ok?"); ("csrf", "t0k3n");
                           ("draft", "on")] None true _))).
  right. left. reflexivity.
Defined.

(** X3.  [ask_question] contacts the portal only when the client is marked
    authenticated; it sends the GET of the form first and the POST only
    after that GET was answered without an error status; and it returns
    [True] only when the POST was sent and answered without an error
    status. *)
Theorem ask_question_requests (fs : filesystem) (c : client) (question : string)
  (draft : bool) (path : option string) (net : network) :
  let target := base_url c ++ "/en/consult" in
  (is_authenticated c = false ->
   ask_question fs c question draft path net = (false, [])) /\
  (sent (ask_question fs c question draft path) net = [] \/
   sent (ask_question fs c question draft path) net = [GET target true] \/
   exists resp data files,
     net (GET target true) = Response resp /\ raise_for_status resp = false /\
     sent (ask_question fs c question draft path) net =
       [GET target true; POST target data files true]) /\
  (value (ask_question fs c question draft path) net = true ->
   exists data files resp,
     sent (ask_question fs c question draft path) net =
       [GET target true; POST target data files true] /\
     net (POST target data files true) = Response resp /\
     raise_for_status resp = false).
Proof.
  intros target. split; [|split].
  - intros Hauth. unfold ask_question. now rewrite Hauth.
  - destruct (ask_question_trace fs c question draft path net)
      as [[_ [H|H]]|(resp1 & files & E1 & S1 & _ & H & _)]; auto.
    right. right. exists resp1. eauto 6.
  - intros Htrue.
    destruct (ask_question_trace fs c question draft path net)
      as [[H _]|(resp1 & files & _ & _ & _ & H & Hpost)]; [congruence|].
    destruct (Hpost Htrue) as (resp2 & E2 & S2). eauto 7.
Qed.

(** X4.  When the attachment path exists but cannot be opened,
    [ask_question] gives up after the GET of the form: it returns [False]
    and the question is not posted.  When the file opens, the POST carries
    its content. *)
Theorem ask_question_unreadable_attachment (fs : filesystem) (c : client)
  (question : string) (draft : bool) (path : string) (net : network)
  (resp : response) :
  is_authenticated c = true ->
  net (GET (base_url c ++ "/en/consult") true) = Response resp ->
  raise_for_status resp = false ->
  path <> "" -> exists_ fs path = true ->
  (open_rb fs path = None ->
   ask_question fs c question draft (Some path) net =
   (false, [GET (base_url c ++ "/en/consult") true])) /\
  (forall content, open_rb fs path = Some content ->
   exists data,
     sent (ask_question fs c question draft (Some path)) net =
     [GET (base_url c ++ "/en/consult") true;
      POST (base_url c ++ "/en/consult") data (Some content) true]).
Proof.
  intros Hauth E1 S1 Hpath Hex.
  apply String.eqb_neq in Hpath.
  split.
  - intros Hopen. unfold ask_question, open_attachment. net_steps.
    rewrite Hauth. simpl. rewrite E1. simpl. rewrite S1. simpl.
    rewrite Hpath, Hex, Hopen. reflexivity.
  - intros content Hopen.
    destruct (ask_question_trace fs c question draft (Some path) net)
      as [[_ [H|H]]|(resp1 & files & _ & _ & Ho & H & _)].
    + exfalso. revert H. unfold ask_question, open_attachment. net_steps.
      rewrite Hauth. simpl. rewrite E1. simpl. rewrite S1. simpl.
      rewrite Hpath, Hex, Hopen. simpl.
      destruct (net (POST _ _ _ _)) as [|r2]; simpl; [discriminate|].
      destruct (raise_for_status r2); simpl; [discriminate|].
      destruct (contains "question" _ && _); simpl; [discriminate|].
      destruct (contains "error" _); discriminate.
    + exfalso. revert H. unfold ask_question, open_attachment. net_steps.
      rewrite Hauth. simpl. rewrite E1. simpl. rewrite S1. simpl.
      rewrite Hpath, Hex, Hopen. simpl.
      destruct (net (POST _ _ _ _)) as [|r2]; simpl; [discriminate|].
      destruct (raise_for_status r2); simpl; [discriminate|].
      destruct (contains "question" _ && _); simpl; [discriminate|].
      destruct (contains "error" _); discriminate.
    + unfold open_attachment in Ho. simpl in Ho.
      rewrite Hpath, Hex, Hopen in Ho. simpl in Ho. injection Ho as <-.
      eauto.
Qed.

Lemma ask_question_unreadable_attachment_witness :
  ask_question locked_disk logged_in "Is it ok?" false (Some "/root/scan.pdf")
               consult_portal =
  (false, [GET (host ++ "/en/consult") true]).
Proof.
  refine (proj1 (@ask_question_unreadable_attachment locked_disk logged_in
                   "Is it ok?" false "/root/scan.pdf" consult_portal
                   {| status_code := 200; url := ""; text := "";
                      soup := page [Tag "input" [("type", "hidden");
                                                 ("name", "csrf");
                                                 ("value", "t0k3n")] []] |}
                   eq_refl eq_refl eq_refl _ eq_refl) eq_refl).
  discriminate.
Defined.

(** *** The listing and the detail page *)

Lemma prefix_empty (s : string) : String.prefix "" s = true.
Proof. now destruct s. Qed.

Lemma contains_amp_snoc (c : ascii) (cur : string) :
  contains "&" cur = false -> "&"%char <> c ->
  contains "&" (cur ++ String c "") = false.
Proof.
  intros Hcur Hc. induction cur as [|a cur IH];
    cbn [String.append contains String.prefix] in *.
  - destruct (ascii_dec "&" c); [contradiction|reflexivity].
  - destruct (ascii_dec "&" a); cbn [orb] in *.
    + now rewrite prefix_empty in Hcur.
    + now apply IH.
Qed.

Lemma first_piece_without_amp (s : string) :
  forall cur, contains "&" cur = false ->
              contains "&" (hd "" (split_from "&" 0 cur s)) = false.
Proof.
  induction s as [|c r IH]; intros cur Hcur; [exact Hcur|].
  cbn [split_from]. cbn [String.prefix].
  destruct (ascii_dec "&" c) as [E|E].
  - rewrite prefix_empty. exact Hcur.
  - apply IH. now apply contains_amp_snoc.
Qed.

Lemma split_amp_first (s : string) :
  contains "&" (nth 0 (split "&" s) "") = false.
Proof.
  pose proof (first_piece_without_amp s "" eq_refl) as H.
  unfold split. now destruct (split_from "&" 0 "" s).
Qed.

Section Listing.
Context {U : Urllib}.

Lemma message_of_link_fields (base : string) (link : node) :
  let m := message_of_link base link in
  m_type m = "E-consult" /\
  (forall id, m_id m = Some id ->
     contains "&" id = false /\
     exists href, get "href" link = Some href /\
                  contains "/safe/consult?" href = true /\
                  contains "id=" href = true /\
                  m_url m = Some (urljoin base href)) /\
  (m_url m = None -> m_id m = None).
Proof.
  unfold message_of_link. cbn [m_type m_id m_url].
  split; [reflexivity|].
  destruct (get "href" link) as [href|]; cbn [contains String.prefix orb andb].
  - destruct (contains "/safe/consult?" href) eqn:Ec; simpl.
    + split; [|discriminate].
      destruct (contains "id=" href) eqn:Ei; [|discriminate].
      intros id H. injection H as <-. split; [apply split_amp_first|].
      exists href. auto.
    + split; [discriminate|reflexivity].
  - split; [discriminate|reflexivity].
Qed.

Lemma listed_from_links (c : client) (folder : string) (net : network)
  (m : message) :
  In m (value (list_messages c folder) net) ->
  exists link, m = message_of_link (base_url c) link.
Proof.
  unfold list_messages. net_steps.
  destruct (is_authenticated c); simpl; [|tauto].
  destruct (net _) as [|resp]; simpl; [tauto|].
  destruct (raise_for_status resp); simpl; [tauto|].
  unfold messages_of_page.
  destruct (find _ (soup resp)) as [folder_div|]; [|intros []].
  destruct (find _ folder_div) as [button_list|]; [|intros []].
  cbv zeta. destruct (existsb _ _); [intros []|].
  intros Hin. apply in_map_iff in Hin. destruct Hin as (link & <- & _).
  now exists link.
Qed.

End Listing.

(** X5.  Every message that [list_messages] returns has the type
    [E-consult]; if it has an identifier, the identifier holds no [&], the
    link it was read from is a consult link with an [id=] parameter, and
    the message has the URL of that link; a message without URL has no
    identifier. *)
Theorem listed_identifier_has_url {U : Urllib} (c : client) (folder : string)
  (net : network) (m : message) :
  In m (value (list_messages c folder) net) ->
  m_type m = "E-consult" /\
  (forall id, m_id m = Some id ->
     contains "&" id = false /\
     exists href, contains "/safe/consult?" href = true /\
                  contains "id=" href = true /\
                  m_url m = Some (urljoin (base_url c) href)) /\
  (m_url m = None -> m_id m = None).
Proof.
  intros Hin. destruct (listed_from_links _ _ _ _ Hin) as [link ->].
  destruct (message_of_link_fields (base_url c) link) as (Ht & Hid & Hurl).
  repeat split; try assumption; destruct (Hid id H) as (Hamp & href & _ & H1 & H2 & H3);
    [assumption|eauto].
Qed.

Lemma listed_identifier_has_url_witness :
  let m := @message_of_link join_on_host host (entry "14" "true") in
  In m (value (list_messages (U := join_on_host) logged_in "inbox")
              (portal [entry "14" "true"; entry_without_id "true"])) /\
  m_id m = Some "14" /\
  m_url m = Some (host ++ "/safe/consult?id=14&date=2025-10-03") /\
  m_type m = "E-consult".
Proof.
  intros m.
  assert (Hin : In m (value (list_messages (U := join_on_host) logged_in "inbox")
                            (portal [entry "14" "true"; entry_without_id "true"])))
    by (vm_compute; auto).
  split; [exact Hin|]. split; [reflexivity|]. split; [reflexivity|].
  exact (proj1 (@listed_identifier_has_url join_on_host logged_in "inbox" _ m Hin)).
Defined.

Lemma content_of_empty (q a : string) :
  content_of q a = "" <-> q = "" /\ a = "".
Proof.
  unfold content_of.
  destruct (String.eqb_spec q ""), (String.eqb_spec a ""); subst; simpl;
    (split; [try tauto; discriminate|intros [? ?]; congruence]).
Qed.

(** X6.  In the details that [get_message_details] returns, [content] is
    made of the question and the answer alone: each non-empty part under
    its label, the two separated by an empty line; it is empty exactly
    when both the question and the answer are empty. *)
Theorem details_content {U : Urllib} (c : client) (address : string)
  (net : network) (d : message_details) :
  value (get_message_details c address) net = Some d ->
  d_content d = content_of (d_question d) (d_answer d) /\
  (d_content d = "" <-> d_question d = "" /\ d_answer d = "") /\
  d_url d = address /\ d_time d = None.
Proof.
  intros Hd.
  assert (Hpage : exists tree, d = details_of_page (base_url c) address tree).
  { revert Hd. unfold get_message_details. net_steps.
    destruct (is_authenticated c); simpl; [|discriminate].
    destruct (net _) as [|resp]; simpl; [discriminate|].
    destruct (raise_for_status resp); simpl; [discriminate|].
    destruct (existsb _ _); simpl; [discriminate|].
    intros H. injection H as <-. eauto. }
  destruct Hpage as [tree ->].
  assert (Hc : d_content (details_of_page (base_url c) address tree) =
               content_of (d_question (details_of_page (base_url c) address tree))
                          (d_answer (details_of_page (base_url c) address tree))).
  { unfold details_of_page, content_of. cbn [d_content d_question d_answer].
    destruct (String.eqb _ ""); destruct (String.eqb _ ""); reflexivity. }
  split; [exact Hc|]. split; [|split; reflexivity].
  rewrite Hc. apply content_of_empty.
Qed.

Lemma details_content_witness :
  let tree := detail_page
                [question_div [Tag "div" [("class", "content")] [Text "Is it ok?"]];
                 Tag "div" [("data-speech", "answer")]
                     [Tag "h2" [] [Text "Dr. Who"];
                      Tag "div" [] [Text "Yes."]]] in
  exists d,
    value (get_message_details (U := join_on_host) logged_in "u")
          (serving "u" tree) = Some d /\
    d_content d = "Question: Is it ok?" ++ nl ++ nl ++ "Answer: Yes.".
Proof.
  intros tree.
  exists (@details_of_page join_on_host host "u" tree).
  assert (Hd : value (get_message_details (U := join_on_host) logged_in "u")
                     (serving "u" tree) =
               Some (@details_of_page join_on_host host "u" tree))
    by reflexivity.
  split; [exact Hd|].
  rewrite (proj1 (@details_content join_on_host logged_in "u" _ _ Hd)).
  reflexivity.
Defined.

(** X21.  Every record that a poll cycle notifies has a URL: the cycle
    only notifies records with a numeric identifier, and [list_messages]
    gives an identifier only together with the URL. *)
Theorem notified_record_has_url {U : Urllib} (w : world) (b : bot) (d : delivery) :
  In d (snd (check_for_new_messages w b)) ->
  exists id address,
    m_id (n_message d) = Some id /\ m_url (n_message d) = Some address /\
    int_of_str id = Some (identifier (n_message d)).
Proof.
  intros Hd.
  destruct (check_sent _ _ _ Hd) as (msgs & L & _ & Hnum & _ & Hin).
  apply filter_In in Hin. destruct Hin as [Hin Hf].
  assert (Hn : numeric (n_message d)).
  { rewrite Forall_forall in Hnum. apply Hnum. apply filter_In.
    split; [assumption|]. now apply fresh_answered in Hf. }
  destruct Hn as [z Hz].
  assert (Hlisted : In (n_message d)
                       (value (list_messages (medical_client b) "inbox")
                              (web (w O)))).
  { revert L Hin. unfold listing, _get_messages_sync.
    rewrite value_bind.
    destruct (value (_ensure_authenticated b) (web (w O))); [|discriminate].
    rewrite value_bind. unfold value at 1, Http.ret. simpl.
    intros H. injection H as <-. auto. }
  destruct (listed_from_links _ _ _ _ Hlisted) as [link Hlink].
  destruct (message_of_link_fields (base_url (medical_client b)) link)
    as (_ & Hid & _).
  rewrite <- Hlink in Hid.
  unfold identifier. rewrite Hz. unfold int in Hz.
  destruct (m_id (n_message d)) as [id|] eqn:Eid; [|discriminate].
  destruct (Hid id eq_refl) as (_ & href & _ & _ & _ & Hurl).
  exists id, (urljoin (base_url (medical_client b)) href).
  repeat split; [exact Hurl|].
  destruct (int_of_str id); [now injection Hz as <-|discriminate].
Qed.

Lemma notified_record_has_url_witness :
  let w := during [entry "14" "true"; entry "9" "true"] always in
  let b := bot_at (Some 9) in
  exists d, In d (snd (check_for_new_messages (U := join_on_host) w b)) /\
            m_url (n_message d) =
              Some (host ++ "/safe/consult?id=14&date=2025-10-03").
Proof.
  intros w b.
  destruct (snd (check_for_new_messages (U := join_on_host) w b)) as [|d r] eqn:E;
    [discriminate E|].
  exists d. split; [now left|].
  assert (Hd : In d (snd (check_for_new_messages (U := join_on_host) w b)))
    by (rewrite E; now left).
  destruct (@notified_record_has_url join_on_host w b d Hd)
    as (id & address & _ & Hurl & _).
  vm_compute in E. injection E as <- _. reflexivity.
Defined.


(** *** Signing in *)

(** [begin_authentication], case by case. *)
Lemma begin_authentication_cases (now : Z) (c : client) (email password : string)
  (net : network) :
  let failed := {| client_after := c; returned := ReturnsFalse;
                   session_saved := false |} in
  (begin_authentication now c email password net = (failed, [login_get c])) \/
  exists form,
    net (login_get c) = Response form /\ raise_for_status form = false /\
    sent (begin_authentication now c email password) net =
      [login_get c; login_post c email password form] /\
    (value (begin_authentication now c email password) net = failed \/
     exists resp,
       net (login_post c email password form) = Response resp /\
       raise_for_status resp = false /\
       ((contains "/login/sms" (url resp) = true /\
         value (begin_authentication now c email password) net =
           {| client_after := c;
              returned := ReturnsTwoFactor
                            {| form_data := _get_form_data (soup resp);
                               sms_url := base_url c ++ "/en/login/sms";
                               timestamp := now |};
              session_saved := false |}) \/
        (contains "/login" (url resp) = false /\
         login_page (text resp) = false /\
         value (begin_authentication now c email password) net =
           {| client_after := authenticated c; returned := ReturnsTrue;
              session_saved := true |}))).
Proof.
  unfold begin_authentication, login_get, login_post. net_steps.
  destruct (net (GET (base_url c ++ "/en/login/account") true)) as [|form] eqn:E1;
    simpl; [now left|].
  destruct (raise_for_status form) eqn:S1; simpl; [now left|].
  right. exists form. split; [reflexivity|]. split; [assumption|].
  destruct (net (POST _ _ _ _)) as [|resp] eqn:E2; simpl; [auto|].
  destruct (raise_for_status resp) eqn:S2; simpl; [auto|].
  destruct (contains "/login/sms" (url resp)) eqn:Esms; simpl.
  - split; [reflexivity|]. right. exists resp. auto.
  - destruct (contains "/login" (url resp)) eqn:Elogin; simpl; [auto|].
    destruct (login_page (text resp)) eqn:Epage; simpl; [auto|].
    split; [reflexivity|]. right. exists resp. auto 6.
Qed.

(** X7.  [begin_authentication] marks the client authenticated and saves
    the session only when it returns [True], and it returns [True] only
    when the login form was fetched and posted, both without error status,
    the POST ended on a URL without [/login], and the page does not show
    both fragments of the login page.  Whenever it returns [False] or the
    data of the second step, the client is left as it was (an earlier
    authentication is not withdrawn) and nothing is saved.  The data of the
    second step always names [/en/login/sms] and carries the hidden fields
    of the page the POST ended on. *)
Theorem begin_authentication_outcomes (now : Z) (c : client)
  (email password : string) (net : network) :
  let out := value (begin_authentication now c email password) net in
  (returned out = ReturnsTrue ->
   client_after out = authenticated c /\ session_saved out = true /\
   exists form resp,
     net (login_get c) = Response form /\ raise_for_status form = false /\
     net (login_post c email password form) = Response resp /\
     raise_for_status resp = false /\
     contains "/login" (url resp) = false /\ login_page (text resp) = false) /\
  (returned out <> ReturnsTrue ->
   client_after out = c /\ session_saved out = false) /\
  (forall data, returned out = ReturnsTwoFactor data ->
     sms_url data = base_url c ++ "/en/login/sms" /\ timestamp data = now /\
     exists form resp,
       net (login_post c email password form) = Response resp /\
       contains "/login/sms" (url resp) = true /\
       form_data data = _get_form_data (soup resp)).
Proof.
  intros out. subst out.
  destruct (begin_authentication_cases now c email password net)
    as [H|(form & E1 & S1 & _ & [H|(resp & E2 & S2 & [[Hs H]|(Hl & Hp & H)])])].
  - unfold value. rewrite H. simpl. split; [discriminate|]. split; [auto|].
    discriminate.
  - rewrite H. simpl. split; [discriminate|]. split; [auto|]. discriminate.
  - rewrite H. simpl. split; [discriminate|]. split; [auto|].
    intros data Hd. injection Hd as <-. simpl. eauto 7.
  - rewrite H. simpl. split; [|split; [congruence|discriminate]].
    intros _. split; [reflexivity|]. split; [reflexivity|].
    exists form, resp. auto 7.
Qed.

Lemma begin_authentication_outcomes_witness :
  let welcoming :=
    fun rq : request =>
      match rq with
      | GET _ _ => ok "Sign in" (page [])
      | POST _ _ _ _ =>
          Response {| status_code := 200; url := host ++ "/en/safe";
                      text := "Welcome"; soup := page [] |}
      end in
  returned (value (begin_authentication 0 (new_client host) "me@example.org"
                                        "secret") welcoming) = ReturnsTrue /\
  is_authenticated
    (client_after (value (begin_authentication 0 (new_client host)
                            "me@example.org" "secret") welcoming)) = true.
Proof.
  intros welcoming.
  assert (H : returned (value (begin_authentication 0 (new_client host)
                                 "me@example.org" "secret") welcoming) =
              ReturnsTrue) by reflexivity.
  split; [exact H|].
  destruct (proj1 (begin_authentication_outcomes 0 (new_client host)
                     "me@example.org" "secret" welcoming) H) as (-> & _).
  reflexivity.
Defined.

(** X8.  [begin_authentication] sends the password in one request at most:
    a POST to [/en/login/account], sent only after the GET of that page was
    answered without error status.  The POST carries the e-mail address
    under [name] and the password under [password], whatever hidden inputs
    of those names the page holds, and the other hidden fields of the
    page unchanged. *)
Theorem begin_authentication_credentials (now : Z) (c : client)
  (email password : string) (net : network) :
  sent (begin_authentication now c email password) net = [login_get c] \/
  exists form data,
    net (login_get c) = Response form /\ raise_for_status form = false /\
    sent (begin_authentication now c email password) net =
      [login_get c; POST (base_url c ++ "/en/login/account") data None true] /\
    dict_get "name" data = Some email /\
    dict_get "password" data = Some password /\
    forall k, k <> "name" -> k <> "password" ->
              dict_get k data = dict_get k (_get_form_data (soup form)).
Proof.
  destruct (begin_authentication_cases now c email password net)
    as [H|(form & E1 & S1 & Hsent & _)].
  - left. unfold sent. now rewrite H.
  - right. exists form. eexists. split; [exact E1|]. split; [exact S1|].
    split; [exact Hsent|]. unfold dict_update. simpl. repeat split.
    + rewrite dict_get_set_other by discriminate. apply dict_get_set_same.
    + apply dict_get_set_same.
    + intros k Hn Hp. rewrite !dict_get_set_other; auto.
Qed.

(** [complete_two_factor_auth], case by case. *)
Lemma complete_two_factor_auth_cases (c : client) (twofa : TwoFactorAuthData)
  (sms_code : string) (net : network) :
  sent (complete_two_factor_auth c twofa sms_code) net = [sms_post twofa sms_code] /\
  (value (complete_two_factor_auth c twofa sms_code) net =
     {| client_after := c; returned := false; session_saved := false |} \/
   value (complete_two_factor_auth c twofa sms_code) net =
     {| client_after := authenticated c; returned := true;
        session_saved := true |} /\
   exists resp,
     net (sms_post twofa sms_code) = Response resp /\
     raise_for_status resp = false /\
     (contains "/login" (url resp) = false \/ contains "/sms" (url resp) = true) /\
     login_page (text resp) = false).
Proof.
  unfold complete_two_factor_auth, sms_post. net_steps.
  destruct (net (POST _ _ _ _)) as [|resp] eqn:E; simpl; [auto|].
  destruct (raise_for_status resp) eqn:S; simpl; [auto|].
  destruct (contains "/login" (url resp)) eqn:El;
    destruct (contains "/sms" (url resp)) eqn:Es; simpl; auto;
    destruct (login_page (text resp)) eqn:Ep; simpl; auto;
    (split; [reflexivity|]; right; split; [reflexivity|]; exists resp; auto).
Qed.

(** X9.  [complete_two_factor_auth] sends exactly one request, a POST to
    the URL of the data it was given; the POST carries the code under
    [sms], whatever the stored form says under that name, and the other
    stored fields unchanged.  The client becomes authenticated and the
    session is saved exactly when the call returns [True]; otherwise the
    client is left as it was. *)
Theorem complete_two_factor_auth_request (c : client) (twofa : TwoFactorAuthData)
  (sms_code : string) (net : network) :
  let out := value (complete_two_factor_auth c twofa sms_code) net in
  (exists data,
     sent (complete_two_factor_auth c twofa sms_code) net =
       [POST (sms_url twofa) data None true] /\
     dict_get "sms" data = Some sms_code /\
     forall k, k <> "sms" -> dict_get k data = dict_get k (form_data twofa)) /\
  (returned out = true ->
   client_after out = authenticated c /\ session_saved out = true) /\
  (returned out = false -> client_after out = c /\ session_saved out = false).
Proof.
  intros out. subst out.
  destruct (complete_two_factor_auth_cases c twofa sms_code net) as [Hsent Hval].
  split.
  - eexists. split; [exact Hsent|]. unfold dict_update. simpl. split.
    + apply dict_get_set_same.
    + intros k Hk. now rewrite dict_get_set_other.
  - destruct Hval as [->|[-> _]]; simpl; split; intros H; auto; discriminate.
Qed.

(** X10.  For [complete_two_factor_auth], a response whose final URL
    contains [/sms] is never a failure by its URL: unless the page shows
    both fragments of the login page, the call returns [True] and the
    client is marked authenticated, also when the portal has answered with
    the SMS page again. *)
Theorem sms_page_counts_as_success (c : client) (twofa : TwoFactorAuthData)
  (sms_code : string) (net : network) (resp : response) :
  net (sms_post twofa sms_code) = Response resp ->
  raise_for_status resp = false ->
  contains "/sms" (url resp) = true ->
  login_page (text resp) = false ->
  returned (value (complete_two_factor_auth c twofa sms_code) net) = true /\
  is_authenticated
    (client_after (value (complete_two_factor_auth c twofa sms_code) net)) = true.
Proof.
  intros E S Hsms Hpage.
  unfold complete_two_factor_auth. unfold sms_post in E. simpl in E. net_steps.
  rewrite E. simpl. rewrite S. simpl. rewrite Hsms, andb_false_r. simpl.
  rewrite Hpage. simpl. auto.
Qed.

Lemma sms_page_counts_as_success_witness :
  let twofa := {| form_data := [("csrf", "b2"); ("sms", "")];
                  sms_url := host ++ "/en/login/sms"; timestamp := 0 |} in
  returned (value (complete_two_factor_auth (new_client host) twofa "000000")
                  (sms_portal host)) = true /\
  is_authenticated
    (client_after (value (complete_two_factor_auth (new_client host) twofa
                            "000000") (sms_portal host))) = true.
Proof.
  intros twofa.
  exact (@sms_page_counts_as_success (new_client host) twofa "000000"
           (sms_portal host)
           {| status_code := 200; url := host ++ "/en/login/sms";
              text := "Enter the code";
              soup := Tag "[document]" []
                        [Tag "input" [("type", "hidden"); ("name", "csrf");
                                      ("value", "b2")] [];
                         Tag "input" [("type", "hidden"); ("name", "sms");
                                      ("value", "")] []] |}
           eq_refl eq_refl eq_refl eq_refl).
Defined.

(** *** What the poll cycle sends *)

Section ReadOnly.
Context {U : Urllib}.

Lemma probe_sent (c : client) (net : network) :
  sent (_is_session_valid c) net = [probe c].
Proof.
  unfold _is_session_valid, probe. net_steps.
  now destruct (net _).
Qed.

Lemma ensure_sent (b : bot) (net : network) :
  (sent (_ensure_authenticated b) net = [] /\
   value (_ensure_authenticated b) net = false) \/
  sent (_ensure_authenticated b) net = [probe (medical_client b)] /\
  is_authenticated (medical_client b) = true /\
  value (_ensure_authenticated b) net =
    value (_is_session_valid (medical_client b)) net.
Proof.
  unfold _ensure_authenticated.
  destruct (is_authenticated (medical_client b)); [right|left; auto].
  now rewrite probe_sent.
Qed.

Lemma list_messages_gets (c : client) (folder : string) (net : network) :
  Forall (fun rq => is_get rq = true) (sent (list_messages c folder) net).
Proof.
  unfold list_messages. net_steps.
  destruct (is_authenticated c); simpl; [|constructor].
  destruct (net _) as [|resp]; simpl; [repeat constructor|].
  destruct (raise_for_status resp); simpl; repeat constructor.
Qed.

Lemma get_message_details_gets (c : client) (address : string) (net : network) :
  Forall (fun rq => is_get rq = true) (sent (get_message_details c address) net).
Proof.
  unfold get_message_details. net_steps.
  destruct (is_authenticated c); simpl; [|constructor].
  destruct (net _) as [|resp]; simpl; [repeat constructor|].
  destruct (raise_for_status resp); simpl; [repeat constructor|].
  destruct (existsb _ _); simpl; repeat constructor.
Qed.

Lemma ensure_gets (b : bot) (net : network) :
  Forall (fun rq => is_get rq = true) (sent (_ensure_authenticated b) net).
Proof.
  destruct (ensure_sent b net) as [[-> _]|[-> _]]; repeat constructor.
Qed.

Lemma get_messages_sync_gets (b : bot) (net : network) :
  Forall (fun rq => is_get rq = true) (sent (_get_messages_sync b) net).
Proof.
  unfold _get_messages_sync. rewrite sent_bind. apply Forall_app.
  split; [apply ensure_gets|].
  destruct (value (_ensure_authenticated b) net); [|constructor].
  rewrite sent_bind. apply Forall_app.
  split; [apply list_messages_gets|constructor].
Qed.

Lemma get_message_details_sync_gets (b : bot) (id : option string)
  (net : network) :
  Forall (fun rq => is_get rq = true) (sent (_get_message_details_sync b id) net).
Proof.
  unfold _get_message_details_sync. rewrite sent_bind. apply Forall_app.
  split; [apply ensure_gets|].
  destruct (value (_ensure_authenticated b) net); [|constructor].
  rewrite sent_bind. apply Forall_app.
  split; [apply list_messages_gets|].
  destruct (List.find _ _) as [[? ? ? [address|] ? ? ?]|];
    try constructor.
  apply get_message_details_gets.
Qed.

End ReadOnly.

(** X13.  The poll cycle only reads: every request that the listing of the
    inbox and the look-up of a record's details send is a GET.  No form is
    posted, so the cycle never signs in and never asks for an SMS code. *)
Theorem poll_cycle_only_reads {U : Urllib} (b : bot) (id : option string)
  (net : network) (rq : request) :
  In rq (sent (_get_messages_sync b) net) \/
  In rq (sent (_get_message_details_sync b id) net) ->
  exists target redirects, rq = GET target redirects.
Proof.
  intros H.
  assert (Hget : is_get rq = true).
  { destruct H as [H|H].
    - pose proof (get_messages_sync_gets b net) as F.
      rewrite Forall_forall in F. now apply F.
    - pose proof (get_message_details_sync_gets b id net) as F.
      rewrite Forall_forall in F. now apply F. }
  destruct rq; [eauto|discriminate].
Qed.

Lemma poll_cycle_only_reads_witness :
  let b := bot_at (Some 9) in
  let net := portal [entry "14" "true"] in
  sent (_get_message_details_sync (U := join_on_host) b (Some "14")) net =
    [GET (host ++ "/en/safe") false;
     GET (host ++ "/en/correspondence?tab=correspondence") true;
     GET (host ++ "/safe/consult?id=14&date=2025-10-03") true] /\
  exists target redirects,
    GET (host ++ "/en/safe") false = GET target redirects.
Proof.
  intros b net. split; [reflexivity|].
  apply (@poll_cycle_only_reads join_on_host b (Some "14") net).
  right. left. reflexivity.
Defined.

Lemma ensure_false_skips {U : Urllib} (w : world) (b : bot) :
  value (_ensure_authenticated b) (web (w O)) = false ->
  check_for_new_messages w b = (b, []).
Proof.
  intros He.
  assert (Hl : listing w b = None).
  { unfold listing, _get_messages_sync. rewrite value_bind, He. reflexivity. }
  unfold check_for_new_messages, check_try. unfold listing in Hl. rewrite Hl.
  now destruct (message_checker_running b).
Qed.

(** X12.  Without a live session the poll cycle is skipped: when the
    client is not marked authenticated, or the probe says the session is
    stale, the cycle notifies nothing and leaves the bot as it was; it has
    sent nothing, or the probe alone; and no details can be looked up. *)
Theorem stale_session_skips_cycle {U : Urllib} (w : world) (b : bot) :
  is_authenticated (medical_client b) = false \/
  value (_is_session_valid (medical_client b)) (web (w O)) = false ->
  check_for_new_messages w b = (b, []) /\
  (sent (_get_messages_sync b) (web (w O)) = [] \/
   sent (_get_messages_sync b) (web (w O)) = [probe (medical_client b)]) /\
  forall id, value (_get_message_details_sync b id) (web (w O)) = None.
Proof.
  intros H.
  assert (He : value (_ensure_authenticated b) (web (w O)) = false).
  { unfold _ensure_authenticated. destruct H as [->|H]; [reflexivity|].
    now destruct (is_authenticated (medical_client b)). }
  split; [|split].
  - now apply ensure_false_skips.
  - unfold _get_messages_sync. rewrite sent_bind, He.
    destruct (ensure_sent b (web (w O))) as [[-> _]|[-> _]]; auto.
  - intros id. unfold _get_message_details_sync. now rewrite value_bind, He.
Qed.

Lemma stale_session_skips_cycle_witness :
  let expired :=
    fun _ : nat =>
      {| web := fun _ => Response {| status_code := 303; url := "";
                                     text := ""; soup := page [] |};
         telegram := fun _ => true |} in
  check_for_new_messages (U := join_on_host) expired (bot_at (Some 9)) =
    (bot_at (Some 9), []).
Proof.
  intros expired.
  refine (proj1 (@stale_session_skips_cycle join_on_host expired
                   (bot_at (Some 9)) _)).
  right. reflexivity.
Defined.

(** *** Cycles one after the other *)

Lemma filter_none (A : Type) (p : A -> bool) (l : list A) :
  (forall x, In x l -> p x = false) -> filter p l = [].
Proof.
  induction l as [|x l IH]; intros H; [reflexivity|].
  simpl. rewrite (H x (or_introl eq_refl)). apply IH.
  intros y Hy. apply H. now right.
Qed.

Lemma nothing_fresh_at_maximum (msgs : list message) :
  filter (fresh (Some (observed msgs))) msgs = [].
Proof.
  apply filter_none. intros m Hin. unfold fresh, above.
  destruct (answered m) eqn:Ea; [|now rewrite andb_false_r].
  assert (identifier m <= observed msgs).
  { apply fold_max_upper. unfold answered_ids. apply in_map.
    apply filter_In. auto. }
  replace (identifier m >? observed msgs) with false by (symmetry; lia).
  now rewrite andb_false_r.
Qed.

(** X14.  A poll cycle repeated at once against the same world does
    nothing: it notifies no record and leaves the bot as the first cycle
    left it. *)
Theorem repeated_cycle_is_silent {U : Urllib} (w : world) (b : bot) :
  check_for_new_messages w (fst (check_for_new_messages w b)) =
  (fst (check_for_new_messages w b), []).
Proof.
  destruct (message_checker_running b) eqn:Run.
  2:{ unfold check_for_new_messages. rewrite Run. simpl. now rewrite Run. }
  destruct (listing w b) as [[|m r]|] eqn:L.
  - assert (H : check_for_new_messages w b = (b, [])).
    { unfold check_for_new_messages, check_try. unfold listing in L.
      now rewrite Run, L. }
    rewrite H. simpl. exact H.
  - destruct (diff_loop (last_message_id b) (m :: r) 0 []) as [[n new]|e] eqn:D.
    + destruct (diff_loop_ok _ _ _ _ D) as (_ & _ & Hnum).
      assert (Hne : m :: r <> []) by discriminate.
      rewrite (check_completes _ _ Run L Hne Hnum). simpl.
      set (b' := _save_last_message_state _ _).
      assert (L' : listing w b' = Some (m :: r)) by exact L.
      rewrite (check_completes w b' (msgs := m :: r) Run L' Hne Hnum).
      simpl last_message_id. rewrite nothing_fresh_at_maximum.
      subst b'. unfold _save_last_message_state, set_last_message_id. simpl.
      now destruct (state_file_write b).
    + assert (H : check_for_new_messages w b = (b, [])).
      { unfold check_for_new_messages, check_try. unfold listing in L.
        now rewrite Run, L, D. }
      rewrite H. simpl. exact H.
  - assert (H : check_for_new_messages w b = (b, [])).
    { unfold check_for_new_messages, check_try. unfold listing in L.
      now rewrite Run, L. }
    rewrite H. simpl. exact H.
Qed.

Lemma observed_not_negative (msgs : list message) : 0 <= observed msgs.
Proof. unfold observed. apply fold_max_lower. Qed.

(** X15.  Once the bot has a cursor it keeps one: no run of poll cycles
    makes the cursor absent again.  A cycle that changes the cursor sets it
    to a value that is not negative, so a cursor that is absent or not
    negative stays so along every run. *)
Theorem cursor_stays_present {U : Urllib} (ws : list world) (b : bot) :
  (last_message_id b <> None ->
   last_message_id (fst (poll ws b)) <> None) /\
  (cursor_not_negative (last_message_id b) ->
   cursor_not_negative (last_message_id (fst (poll ws b)))) /\
  (forall w, last_message_id (fst (check_for_new_messages w b)) <>
             last_message_id b ->
             exists c, last_message_id (fst (check_for_new_messages w b)) = Some c /\
                       0 <= c).
Proof.
  split; [|split].
  - revert b. induction ws as [|w rest IH]; intros b Hb; [exact Hb|].
    rewrite poll_step. apply IH.
    destruct (check_cursor w b) as [[-> _]|(msgs & _ & _ & _ & -> & _)];
      [exact Hb|discriminate].
  - revert b. induction ws as [|w rest IH]; intros b Hb; [exact Hb|].
    rewrite poll_step. apply IH.
    destruct (check_cursor w b) as [[-> _]|(msgs & _ & _ & _ & -> & _)];
      [exact Hb|apply observed_not_negative].
  - intros w Hchanged.
    destruct (check_cursor w b) as [[H _]|(msgs & _ & _ & _ & H & _)];
      [congruence|].
    exists (observed msgs). split; [exact H|apply observed_not_negative].
Qed.

Lemma cursor_stays_present_witness :
  let ws := [during [entry "11" "true"] always;
             during [entry "20" "false"] always;
             during [] always] in
  last_message_id (fst (poll (U := join_on_host) ws (bot_at (Some 14)))) =
    Some 0 /\
  last_message_id (fst (poll (U := join_on_host) ws (bot_at (Some 14)))) <> None.
Proof.
  intros ws. split; [reflexivity|].
  apply (proj1 (@cursor_stays_present join_on_host ws (bot_at (Some 14)))).
  discriminate.
Defined.

(** *** Signing out, and loading the session *)

(** X11.  [logout] ends the session whatever the portal answers: it sends
    one GET of [/en/logout], and afterwards the jar is empty, the client is
    not marked authenticated and the session file is gone.  From then on
    [list_messages], [get_message_details] and [ask_question] return their
    empty results without contacting the portal, and a poll cycle of a bot
    with that client does nothing and sends nothing. *)
Theorem logout_ends_session {U : Urllib} (c : client) (file : snapshot)
  (net : network) :
  let c' := fst (value (logout c file) net) in
  sent (logout c file) net = [GET (base_url c ++ "/en/logout") true] /\
  snd (value (logout c file) net) = NoFile /\
  cookies c' = [] /\ is_authenticated c' = false /\ base_url c' = base_url c /\
  (forall net' folder address fs question draft path,
     list_messages c' folder net' = ([], []) /\
     get_message_details c' address net' = (None, []) /\
     ask_question fs c' question draft path net' = (false, [])) /\
  (forall w b,
     medical_client b = c' ->
     check_for_new_messages w b = (b, []) /\
     sent (_get_messages_sync b) (web (w O)) = []).
Proof.
  unfold logout. net_steps.
  do 5 (split; [reflexivity|]). split; [intros; repeat split|].
  intros w b Hc.
  assert (Hauth : is_authenticated (medical_client b) = false) by now rewrite Hc.
  split.
  - apply ensure_false_skips. unfold _ensure_authenticated. now rewrite Hauth.
  - unfold _get_messages_sync, _ensure_authenticated. rewrite Hauth. reflexivity.
Qed.

(** [_is_session_valid] looks at the base URL only. *)
Lemma probe_same_base (c1 c2 : client) (net : network) :
  base_url c1 = base_url c2 ->
  _is_session_valid c1 net = _is_session_valid c2 net.
Proof. unfold _is_session_valid. now intros ->. Qed.

(** X16.  [_load_session] never takes a stored session on trust: a client
    that was not marked authenticated is marked so by the load only when
    the file held a JSON document, no exception was raised, and the probe
    of the protected page answered that the session is valid.  Besides,
    the load sends nothing but that probe. *)
Theorem load_session_trusts_probe_only {L : CookieLib} (c : client)
  (file : snapshot) (net : network) :
  is_authenticated c = false ->
  (is_authenticated (fst (value (_load_session c file) net)) = true ->
   value (_is_session_valid c) net = true /\
   snd (value (_load_session c file) net) = None /\
   exists j, file = Document j) /\
  (sent (_load_session c file) net = [] \/
   sent (_load_session c file) net = [probe c]).
Proof.
  intros Hauth. destruct file as [| |j].
  - simpl. unfold value, sent. simpl. rewrite Hauth. split; [discriminate|auto].
  - unfold value, sent. rewrite load_session_not_json. simpl. rewrite Hauth.
    split; [discriminate|auto].
  - unfold _load_session, load_session_try.
    destruct (Py.bind (get_cookies j) iterate) as [items|e].
    + destruct (restore_cookies (cookies c) items) as [jar [e|]]; cbv beta iota.
      * net_steps. destruct (caught_on_load e); simpl; rewrite Hauth;
          (split; [discriminate|auto]).
      * assert (Hv : forall c1, base_url c1 = base_url c ->
                       value (_is_session_valid c1) net =
                       value (_is_session_valid c) net).
        { intros c1 H. unfold value. now rewrite (probe_same_base c1 c net H). }
        rewrite !value_bind, !sent_bind, !value_bind.
        set (c1 := {| base_url := base_url c; cookies := jar;
                      is_authenticated := is_authenticated c |}).
        rewrite !(Hv c1 eq_refl), !probe_sent. subst c1.
        destruct (value (_is_session_valid c) net);
          unfold value, sent, Http.ret, probe; simpl.
        -- split; [intros _; eauto|auto].
        -- rewrite Hauth. split; [discriminate|auto].
    + net_steps. destruct (caught_on_load e); simpl; rewrite Hauth;
        (split; [discriminate|auto]).
Qed.

Lemma load_session_trusts_probe_only_witness :
  let stored :=
    Document (JDict [("cookies",
                      JList [JDict [("name", JStr "sid"); ("value", JStr "abc")]]);
                     ("timestamp", JStr "2025-10-03T15:56:00")]) in
  is_authenticated
    (fst (value (_load_session (L := lenient_cookies) (new_client host) stored)
                (portal []))) = true /\
  value (_is_session_valid (new_client host)) (portal []) = true.
Proof.
  intros stored.
  assert (H : is_authenticated
                (fst (value (_load_session (L := lenient_cookies)
                               (new_client host) stored) (portal []))) = true)
    by reflexivity.
  split; [exact H|].
  exact (proj1 (proj1 (@load_session_trusts_probe_only lenient_cookies
                         (new_client host) stored (portal []) eq_refl) H)).
Defined.

(** *** The command handlers *)

Lemma message_buttons_ok (l : list message) :
  Forall (fun m => m_subject m <> None) l ->
  exists keyboard,
    message_buttons l = Ok keyboard /\
    map callback_data keyboard = map (fun m => "msg_" ++ printed_id m) l.
Proof.
  induction 1 as [|m l Hm _ IH]; simpl; [now exists []|].
  destruct IH as (keyboard & -> & Hk).
  unfold message_button. destruct (m_subject m) as [subject|]; [|congruence].
  eexists. split; [reflexivity|]. simpl. now rewrite Hk.
Qed.

Lemma message_buttons_raise (l : list message) :
  Exists (fun m => m_subject m = None) l ->
  message_buttons l = Raise TypeError.
Proof.
  induction 1 as [m l Hm|m l _ IH]; simpl.
  - unfold message_button. now rewrite Hm.
  - destruct (message_button m) as [btn|e] eqn:E.
    + now rewrite IH.
    + unfold message_button in E. destruct (m_subject m); [discriminate|].
      now injection E as <-.
Qed.

(** X17.  For an authorised chat and a listing that is not empty,
    [messages_command] stores the whole listing in the user data.  When
    each of the first ten messages has a subject, it answers with a list
    of [min(10, n)] buttons, one for each of the first ten messages in
    listing order, whose callback data is [msg_] followed by the
    identifier.  When one of the first ten has no subject, building the
    list raises and the command answers that fetching failed; messages
    after the tenth play no part. *)
Theorem messages_command_display {U : Urllib} (b : bot) (chat_id : string)
  (data : user_data) (net : network) (msgs : list message) :
  _is_authorized_chat b chat_id = true ->
  value (_get_messages_sync b) net = Some msgs -> msgs <> [] ->
  messages_list (fst (value (messages_command b chat_id data) net)) =
    Some msgs /\
  (Forall (fun m => m_subject m <> None) (firstn 10 msgs) ->
   exists body keyboard,
     snd (value (messages_command b chat_id data) net) =
       [FetchingYourMessages; MessageList body keyboard] /\
     map callback_data keyboard =
       map (fun m => "msg_" ++ printed_id m) (firstn 10 msgs) /\
     List.length keyboard = Nat.min 10 (List.length msgs)) /\
  (Exists (fun m => m_subject m = None) (firstn 10 msgs) ->
   snd (value (messages_command b chat_id data) net) =
     [FetchingYourMessages; ErrorFetchingMessages]).
Proof.
  intros Hauth Hl Hne. unfold messages_command. rewrite Hauth. simpl negb.
  cbv iota. rewrite value_bind, Hl.
  destruct msgs as [|m r]; [congruence|].
  unfold _create_message_list_display.
  split; [|split].
  - destruct (message_buttons _); reflexivity.
  - intros Hall. destruct (message_buttons_ok Hall) as (keyboard & -> & Hk).
    eexists. exists keyboard. split; [reflexivity|]. split; [exact Hk|].
    rewrite <- (length_map callback_data), Hk, length_map.
    apply length_firstn.
  - intros Hex. now rewrite (message_buttons_raise Hex).
Qed.

Lemma messages_command_display_witness :
  let net := portal [entry "14" "true"; entry_without_id "false"] in
  snd (value (messages_command (U := join_on_host) (bot_at None) "42"
                {| twofa_data := None; messages_list := None |}) net) =
  [FetchingYourMessages;
   MessageList
     (clipboard_mark ++ " *Your Messages* (2 total)" ++ nl ++ nl ++
      "Click on a message to view details:")
     [{| button_text := page_mark ++ " Consult 14... (3 October 2025)";
         callback_data := "msg_14" |};
      {| button_text := page_mark ++ " Notice...";
         callback_data := "msg_None" |}]] /\
  messages_list
    (fst (value (messages_command (U := join_on_host) (bot_at None) "42"
                   {| twofa_data := None; messages_list := None |}) net)) =
  Some (listed [entry "14" "true"; entry_without_id "false"]).
Proof.
  intros net. split; [reflexivity|].
  apply (@messages_command_display join_on_host (bot_at None) "42" _ net
           (listed [entry "14" "true"; entry_without_id "false"])).
  - reflexivity.
  - reflexivity.
  - discriminate.
Defined.

(** X18.  Pressing the button of a message that has an identifier looks
    that identifier up: for an authorised chat, [handle_callback_query] on
    the button's callback data sends what [_get_message_details_sync]
    sends for the identifier, and answers with the details it found, or
    that the details could not be retrieved. *)
Theorem button_looks_up_its_message {U : Urllib} (b : bot) (chat_id : string)
  (data : user_data) (net : network) (m : message) (pressed : button)
  (id : string) :
  _is_authorized_chat b chat_id = true ->
  message_button m = Ok pressed -> m_id m = Some id ->
  callback_data pressed = "msg_" ++ id /\
  sent (handle_callback_query b chat_id data (callback_data pressed)) net =
    sent (_get_message_details_sync b (Some id)) net /\
  value (handle_callback_query b chat_id data (callback_data pressed)) net =
    Ok [match value (_get_message_details_sync b (Some id)) net with
        | Some d => MessageDetails (details_text d) [back_button]
        | None => CouldNotRetrieveDetails
        end].
Proof.
  intros Hauth Hb Hid.
  assert (Hc : callback_data pressed = "msg_" ++ id).
  { unfold message_button in Hb. destruct (m_subject m); [|discriminate].
    injection Hb as <-. simpl. now rewrite Hid. }
  split; [exact Hc|]. rewrite Hc.
  unfold handle_callback_query. rewrite Hauth. simpl negb. cbv iota.
  assert (Hback : String.eqb ("msg_" ++ id) "back_to_messages" = false)
    by reflexivity.
  assert (Hpre : startswith "msg_" ("msg_" ++ id) = true).
  { unfold startswith. simpl. apply prefix_empty. }
  rewrite Hback, Hpre. simpl drop.
  rewrite sent_bind, value_bind.
  destruct (value (_get_message_details_sync b (Some id)) net);
    unfold sent, value, Http.ret; simpl; now rewrite app_nil_r.
Qed.

Lemma button_looks_up_its_message_witness :
  let m := @message_of_link join_on_host host (entry "14" "true") in
  let pressed := {| button_text := page_mark ++ " Consult 14... (3 October 2025)";
                    callback_data := "msg_14" |} in
  message_button m = Ok pressed /\
  value (handle_callback_query (U := join_on_host) (bot_at None) "42"
           {| twofa_data := None; messages_list := None |}
           (callback_data pressed))
        (portal [entry "14" "true"]) = Ok [CouldNotRetrieveDetails].
Proof.
  intros m pressed.
  assert (Hb : message_button m = Ok pressed) by reflexivity.
  split; [exact Hb|].
  rewrite (proj2 (proj2 (@button_looks_up_its_message join_on_host (bot_at None)
                           "42" {| twofa_data := None; messages_list := None |}
                           (portal [entry "14" "true"]) m pressed "14"
                           eq_refl Hb eq_refl))).
  reflexivity.
Defined.

(** X19.  A chat other than the authorised one gets no answer and causes
    no request, whatever it sends: every handler returns at once, with the
    bot and the user data as they were. *)
Theorem unauthorized_chat_is_ignored {U : Urllib} (fs : filesystem) (b : bot)
  (chat_id : string) (data : user_data) (net : network) :
  _is_authorized_chat b chat_id = false ->
  start_command b chat_id = [] /\ help_command b chat_id = [] /\
  (forall args, ask_command fs b chat_id args net = ([], [])) /\
  messages_command b chat_id data net = ((data, []), []) /\
  (forall query_data,
     handle_callback_query b chat_id data query_data net = (Ok [], [])) /\
  (forall now email password,
     start_auth now email password b chat_id data net =
     ({| bot_after := b; data_after := data; state := END; replies := [] |}, [])) /\
  (forall message_text,
     handle_sms_code b chat_id data message_text net =
     ({| bot_after := b; data_after := data; state := END; replies := [] |}, [])) /\
  cancel_auth b chat_id data =
    {| bot_after := b; data_after := data; state := END; replies := [] |}.
Proof.
  intros Hno.
  unfold start_command, help_command, ask_command, messages_command,
    handle_callback_query, start_auth, handle_sms_code, cancel_auth.
  rewrite Hno. unfold _is_authorized_chat in Hno. rewrite Hno.
  repeat split.
Qed.

Lemma unauthorized_chat_is_ignored_witness :
  ask_command empty_disk (bot_at None) "666" ["Is"; "it"; "ok?"] consult_portal =
    ([], []) /\
  start_auth 0 "me@example.org" "secret" (bot_at None) "666"
             {| twofa_data := None; messages_list := None |} consult_portal =
    ({| bot_after := bot_at None;
        data_after := {| twofa_data := None; messages_list := None |};
        state := END; replies := [] |}, []).
Proof.
  destruct (@unauthorized_chat_is_ignored join_on_host empty_disk (bot_at None)
              "666" {| twofa_data := None; messages_list := None |}
              consult_portal eq_refl)
    as (_ & _ & Hask & _ & _ & Hstart & _).
  split; [apply Hask|apply Hstart].
Defined.

(** [handle_sms_code] for an authorised chat that has stored data. *)
Lemma handle_sms_code_cases (b : bot) (chat_id : string) (data : user_data)
  (twofa : TwoFactorAuthData) (message_text : string) (net : network) :
  _is_authorized_chat b chat_id = true ->
  twofa_data data = Some twofa ->
  sent (handle_sms_code b chat_id data message_text) net =
    [sms_post twofa (strip message_text)] /\
  (value (handle_sms_code b chat_id data message_text) net =
     {| bot_after := set_medical_client b (medical_client b);
        data_after := data;
        state := WAITING_FOR_SMS_CODE;
        replies := [InvalidSmsCode] |} \/
   value (handle_sms_code b chat_id data message_text) net =
     {| bot_after := set_medical_client b (authenticated (medical_client b));
        data_after := {| twofa_data := None;
                         messages_list := messages_list data |};
        state := END;
        replies := [TwoFactorSuccessful] |}).
Proof.
  intros Hauth Hdata. unfold handle_sms_code. rewrite Hauth, Hdata.
  simpl negb. cbv iota. rewrite sent_bind, value_bind.
  destruct (complete_two_factor_auth_cases (medical_client b) twofa
              (strip message_text) net) as [Hs [Hv|[Hv _]]];
    rewrite Hs, Hv; unfold sent, value, Http.ret; simpl; auto.
Qed.

(** X20.  The conversation of the second step.  When [start_auth] leaves
    the conversation waiting for the code, it has stored data that names
    [/en/login/sms] and has left the client as it was.  From there,
    [handle_sms_code] sends exactly one request, a POST to that URL with
    the stripped text of the message under [sms]; it either ends the
    conversation, forgets the stored data and marks the client
    authenticated, or keeps waiting with the same stored data and the
    client unchanged, so that another code can be sent with the same
    form.  Without stored data it ends the conversation and sends
    nothing. *)
Theorem sms_conversation (now : Z) (email password : string) (b : bot)
  (chat_id : string) (data : user_data) (net : network) :
  _is_authorized_chat b chat_id = true ->
  (state (value (start_auth now email password b chat_id data) net) =
     WAITING_FOR_SMS_CODE ->
   exists twofa,
     twofa_data (data_after (value (start_auth now email password b chat_id data)
                                   net)) = Some twofa /\
     sms_url twofa = base_url (medical_client b) ++ "/en/login/sms" /\
     medical_client (bot_after (value (start_auth now email password b chat_id
                                                   data) net)) =
       medical_client b /\
     forall message_text net',
       let before := value (start_auth now email password b chat_id data) net in
       let after := value (handle_sms_code (bot_after before) chat_id
                                           (data_after before) message_text)
                          net' in
       (exists fields,
          sent (handle_sms_code (bot_after before) chat_id (data_after before)
                                message_text) net' =
            [POST (base_url (medical_client b) ++ "/en/login/sms") fields None
                  true] /\
          dict_get "sms" fields = Some (strip message_text)) /\
       ((state after = END /\ replies after = [TwoFactorSuccessful] /\
         twofa_data (data_after after) = None /\
         is_authenticated (medical_client (bot_after after)) = true) \/
        (state after = WAITING_FOR_SMS_CODE /\ replies after = [InvalidSmsCode] /\
         data_after after = data_after before /\
         medical_client (bot_after after) = medical_client b))) /\
  (twofa_data data = None ->
   forall message_text,
     handle_sms_code b chat_id data message_text net =
     ({| bot_after := b; data_after := data; state := END;
         replies := [NoTwoFactorSession] |}, [])).
Proof.
  intros Hauth. split.
  - unfold start_auth at 1. rewrite Hauth. simpl negb. cbv iota.
    rewrite value_bind.
    destruct (begin_authentication_cases now (medical_client b) email password net)
      as [H|(form & _ & _ & _ & [H|(resp & _ & _ & [[_ H]|(_ & _ & H)])])].
    + unfold value at 2. rewrite H. unfold value, Http.ret. simpl. discriminate.
    + rewrite H. unfold value, Http.ret. simpl. discriminate.
    + intros _.
      assert (Hbefore :
        value (start_auth now email password b chat_id data) net =
        {| bot_after := set_medical_client b (medical_client b);
           data_after :=
             {| twofa_data :=
                  Some {| form_data := _get_form_data (soup resp);
                          sms_url := base_url (medical_client b) ++ "/en/login/sms";
                          timestamp := now |};
                messages_list := messages_list data |};
           state := WAITING_FOR_SMS_CODE;
           replies := [StartingAuthentication; TwoFactorRequired] |}).
      { unfold start_auth. rewrite Hauth. simpl negb. cbv iota.
        rewrite value_bind, H. reflexivity. }
      rewrite Hbefore. simpl.
      eexists. split; [reflexivity|]. split; [reflexivity|].
      split; [reflexivity|].
      intros message_text net'.
      match goal with
      | |- context [handle_sms_code ?b1 ?ch ?d1 ?t] =>
          destruct (@handle_sms_code_cases b1 ch d1 _ t net' Hauth eq_refl)
            as [Hs Hv]
      end.
      split.
      * eexists. split; [exact Hs|]. unfold dict_update. simpl.
        apply dict_get_set_same.
      * destruct Hv as [->| ->]; simpl; auto.
    + rewrite H. unfold value, Http.ret. simpl. discriminate.
  - intros Hnone message_text. unfold handle_sms_code.
    now rewrite Hauth, Hnone.
Qed.

Lemma sms_conversation_witness :
  let data := {| twofa_data := None; messages_list := None |} in
  let before := value (start_auth 0 "me@example.org" "secret"
                         (new_bot (new_client host) "42" None) "42" data)
                      (sms_portal host) in
  state before = WAITING_FOR_SMS_CODE /\
  sent (handle_sms_code (bot_after before) "42" (data_after before) " 123456 ")
       (sms_portal host) =
    [POST (host ++ "/en/login/sms") [("csrf", "b2"); ("sms", "123456")] None true] /\
  exists twofa,
    twofa_data (data_after before) = Some twofa /\
    sms_url twofa = host ++ "/en/login/sms".
Proof.
  intros data before.
  assert (Hw : state before = WAITING_FOR_SMS_CODE) by reflexivity.
  split; [exact Hw|]. split; [reflexivity|].
  destruct (proj1 (@sms_conversation 0 "me@example.org" "secret"
                     (new_bot (new_client host) "42" None) "42" data
                     (sms_portal host) eq_refl) Hw)
    as (twofa & H1 & H2 & _).
  exists twofa. split; [exact H1|exact H2].
Defined.

(** *** What the callers let through *)

(** The fields of a POST of [ask_question]. *)
Lemma ask_question_post (fs : filesystem) (c : client) (question : string)
  (draft : bool) (path : option string) (net : network)
  (target : string) (data : dict string) (files : option string)
  (redirects : bool) :
  In (POST target data files redirects)
     (sent (ask_question fs c question draft path) net) ->
  target = base_url c ++ "/en/consult" /\
  dict_get "question" data = Some question /\
  dict_get "draft" data = Some (if draft then "on" else "") /\
  open_attachment fs path = Ok files.
Proof.
  intros Hin.
  destruct (ask_question_trace fs c question draft path net)
    as [[_ [H|H]]|(resp1 & files' & _ & _ & Ho & H & _)];
    rewrite H in Hin; simpl in Hin.
  - destruct Hin.
  - destruct Hin as [Hin|[]]. discriminate.
  - destruct Hin as [Hin|[Hin|[]]]; [discriminate|].
    injection Hin as <- <- <- <-.
    unfold dict_update. simpl. repeat split; [| |exact Ho].
    + rewrite dict_get_set_other by discriminate. apply dict_get_set_same.
    + apply dict_get_set_same.
Qed.

(** X22.  Whatever reaches the portal through the /ask command was
    checked: a POST sent by [ask_command] comes from the authorised chat,
    goes to [/en/consult], carries the words of the command joined by
    blanks as the question, of 600 characters at most, is no draft and has
    no attachment; and it was sent only after the probe had found the
    session valid. *)
Theorem ask_command_posts_checked_question (fs : filesystem) (b : bot)
  (chat_id : string) (args : list string) (net : network)
  (target : string) (data : dict string) (files : option string)
  (redirects : bool) :
  In (POST target data files redirects) (sent (ask_command fs b chat_id args) net) ->
  chat_id = authorized_chat_id b /\
  target = base_url (medical_client b) ++ "/en/consult" /\
  dict_get "question" data = Some (join " " args) /\
  (String.length (join " " args) <= 600)%nat /\
  dict_get "draft" data = Some "" /\ files = None /\
  value (_is_session_valid (medical_client b)) net = true.
Proof.
  unfold ask_command.
  destruct (String.eqb_spec chat_id (authorized_chat_id b)) as [Hc|Hc];
    simpl negb; cbv iota; [|intros []].
  destruct args as [|a r]; [intros []|].
  destruct (600 <? String.length (join " " (a :: r)))%nat eqn:El; [intros []|].
  apply Nat.ltb_ge in El.
  rewrite sent_bind. unfold _ask_question_sync at 1. rewrite sent_bind.
  intros Hin. rewrite !in_app_iff in Hin.
  destruct Hin as [[Hin|Hin]|Hin].
  - pose proof (ensure_gets b net) as F. rewrite Forall_forall in F.
    specialize (F _ Hin). discriminate.
  - destruct (ensure_sent b net) as [[_ He]|(_ & _ & He)].
    + rewrite He in Hin. destruct Hin.
    + destruct (value (_ensure_authenticated b) net) eqn:Ev; [|destruct Hin].
      rewrite sent_bind, in_app_iff in Hin. destruct Hin as [Hin|[]].
      destruct (ask_question_post _ _ _ _ _ _ _ _ _ _ Hin) as (Ht & Hq & Hd & Ho).
      simpl in Ho. injection Ho as <-. auto 8.
  - exfalso. revert Hin.
    destruct (value (_ask_question_sync fs b (join " " (a :: r))) net)
      as [[|]|]; intros [].
Qed.

Lemma ask_command_posts_checked_question_witness :
  sent (ask_command empty_disk (bot_at None) "42" ["Is"; "it"; "ok?"])
       consult_portal =
    [GET (host ++ "/en/safe") false;
     GET (host ++ "/en/consult") true;
     POST (host ++ "/en/consult")
          [("csrf", "t0k3n"); ("question", "Is it ok?"); ("draft", "")]
          None true] /\
  (String.length (join " " ["Is"; "it"; "ok?"]) <= 600)%nat.
Proof.
  split; [reflexivity|].
  refine (proj1 (proj2 (proj2 (proj2
    (@ask_command_posts_checked_question empty_disk (bot_at None) "42"
       ["Is"; "it"; "ok?"] consult_portal (host ++ "/en/consult")
       [("csrf", "t0k3n"); ("question", "Is it ok?"); ("draft", "")] None true
       _))))).
  right. right. left. reflexivity.
Defined.

(** X23.  Whatever reaches the portal through choice 4 of the menu was
    checked: a POST sent by it carries the stripped question, which is not
    empty and has 600 characters at most; it is a draft exactly when the
    answer to the draft question is [y] or [Y]; and an attachment is sent
    only for a path that exists. *)
Theorem menu_posts_checked_question (fs : filesystem) (c : client)
  (question_line draft_line attachment_line : string) (net : network)
  (target : string) (data : dict string) (files : option string)
  (redirects : bool) :
  In (POST target data files redirects)
     (sent (ExampleUsage.ask_a_question fs c question_line draft_line
                                        attachment_line) net) ->
  dict_get "question" data = Some (strip question_line) /\
  strip question_line <> "" /\
  (String.length (strip question_line) <= 600)%nat /\
  dict_get "draft" data =
    Some (if String.eqb (lower (strip draft_line)) "y" then "on" else "") /\
  (files <> None ->
   strip attachment_line <> "" /\ exists_ fs (strip attachment_line) = true).
Proof.
  unfold ExampleUsage.ask_a_question.
  destruct (String.eqb_spec (strip question_line) "") as [Hq|Hq]; [intros []|].
  destruct (600 <? String.length (strip question_line))%nat eqn:El; [intros []|].
  apply Nat.ltb_ge in El.
  destruct (String.eqb_spec (strip attachment_line) "") as [Ha|Ha];
    cbn [negb andb].
  - rewrite sent_bind, in_app_iff. intros [Hin|Hin].
    + destruct (ask_question_post _ _ _ _ _ _ _ _ _ _ Hin) as (_ & Hqd & Hd & Ho).
      simpl in Ho. injection Ho as <-. repeat split; auto; congruence.
    + exfalso. revert Hin. destruct (value _ net); intros [].
  - destruct (exists_ fs (strip attachment_line)) eqn:Ex; cbn [negb];
      [|intros []].
    rewrite sent_bind, in_app_iff. intros [Hin|Hin].
    + destruct (ask_question_post _ _ _ _ _ _ _ _ _ _ Hin) as (_ & Hqd & Hd & _).
      repeat split; auto.
    + exfalso. revert Hin. destruct (value _ net); intros [].
Qed.

Lemma menu_posts_checked_question_witness :
  sent (ExampleUsage.ask_a_question empty_disk logged_in "  Is it ok? " " Y " "")
       consult_portal =
    [GET (host ++ "/en/consult") true;
     POST (host ++ "/en/consult")
          [("csrf", "t0k3n"); ("question", "Is it ok?"); ("draft", "on")]
          None true] /\
  dict_get "draft" [("csrf", "t0k3n"); ("question", "Is it ok?"); ("draft", "on")]
    = Some "on".
Proof.
  split; [reflexivity|].
  refine (proj1 (proj2 (proj2 (proj2
    (@menu_posts_checked_question empty_disk logged_in "  Is it ok? " " Y " ""
       consult_portal (host ++ "/en/consult")
       [("csrf", "t0k3n"); ("question", "Is it ok?"); ("draft", "on")] None true
       _))))).
  right. left. reflexivity.
Defined.

(** X24.  The button of a message without identifier leads nowhere: its
    callback data is [msg_None], and unless the inbox lists a message
    whose identifier is the text [None], pressing it is answered with
    "could not retrieve". *)
Theorem button_without_identifier {U : Urllib} (b : bot) (chat_id : string)
  (data : user_data) (net : network) (m : message) (pressed : button) :
  _is_authorized_chat b chat_id = true ->
  message_button m = Ok pressed -> m_id m = None ->
  (forall x, In x (value (list_messages (medical_client b) "inbox") net) ->
             m_id x <> Some "None") ->
  callback_data pressed = "msg_None" /\
  value (handle_callback_query b chat_id data (callback_data pressed)) net =
    Ok [CouldNotRetrieveDetails].
Proof.
  intros Hauth Hb Hid Hnone.
  assert (Hc : callback_data pressed = "msg_None").
  { unfold message_button in Hb. destruct (m_subject m); [|discriminate].
    injection Hb as <-. simpl. now rewrite Hid. }
  split; [exact Hc|]. rewrite Hc.
  unfold handle_callback_query. rewrite Hauth. simpl negb. cbv iota.
  change (String.eqb "msg_None" "back_to_messages") with false.
  change (startswith "msg_" "msg_None") with true. cbv iota.
  change (drop 4 "msg_None") with "None".
  rewrite value_bind.
  assert (Hd : value (_get_message_details_sync b (Some "None")) net = None).
  { unfold _get_message_details_sync. rewrite value_bind.
    destruct (value (_ensure_authenticated b) net); [|reflexivity].
    rewrite value_bind.
    destruct (List.find _ _) as [x|] eqn:F; [|reflexivity].
    exfalso. apply find_some in F. destruct F as [Hin Hx].
    apply (Hnone x Hin). unfold same_id in Hx.
    destruct (m_id x) as [id|]; [|discriminate].
    apply andb_prop in Hx. destruct Hx as [Hx _].
    apply String.eqb_eq in Hx. now subst. }
  now rewrite Hd.
Qed.

Lemma button_without_identifier_witness :
  let m := @message_of_link join_on_host host (entry_without_id "true") in
  let pressed := {| button_text := page_mark ++ " Notice...";
                    callback_data := "msg_None" |} in
  message_button m = Ok pressed /\
  value (handle_callback_query (U := join_on_host) (bot_at None) "42"
           {| twofa_data := None; messages_list := None |}
           (callback_data pressed))
        (portal [entry "14" "true"; entry_without_id "true"]) =
    Ok [CouldNotRetrieveDetails].
Proof.
  intros m pressed.
  assert (Hb : message_button m = Ok pressed) by reflexivity.
  split; [exact Hb|].
  refine (proj2 (@button_without_identifier join_on_host (bot_at None) "42"
                   {| twofa_data := None; messages_list := None |}
                   (portal [entry "14" "true"; entry_without_id "true"])
                   m pressed eq_refl Hb eq_refl _)).
  intros x Hin. vm_compute in Hin.
  destruct Hin as [<-|[<-|[]]]; discriminate.
Defined.
